(** * Dataset adapters of [torch_datasets.py]

    A shallow embedding of the two [torch.utils.data.Dataset] subclasses
    [EdfDataset] and [CrowdDataset], of the numpy/torch operations they
    call, and of the helpers of [my_utils] they rely on, whose code is
    not part of the sources and is modelled from the specification.

    Conventions of the embedding:
    - a 2-D array is the list of its rows; a binary mask is a 2-D array of
      [bool];
    - tensors of numbers are lists over [Z]; the casts to [uint8] and
      [int64] are exact on the 0/1 values the code handles, so they are the
      identity (or [Z.b2z]) here; the [float32] arithmetic of the local
      adapter (box coordinates, their differences and products, all
      integer-valued) is rounded explicitly with [f32]; in the
      external-annotation adapter [float32] only holds box coordinates,
      which no arithmetic follows: the cast is taken as exact there, as
      it is for arrays of up to 2^24 rows and columns;
    - exceptions and [print] are explicit: a computation yields the lines
      it printed and either the exception it raised or its value. *)

From stdpp Require Import gmap strings list sorting.
From Stdlib Require Import ZArith Lia Ascii.

(** ** Python computations: printed lines and exceptions *)

Inductive exn : Type :=
| IndexError
| KeyError
| ValueError
| FileNotFoundError.

Definition Py (A : Type) : Type := (list string * (exn + A))%type.

Definition ret {A} (x : A) : Py A := ([], inr x).
Definition raise {A} (e : exn) : Py A := ([], inl e).
Definition print (s : string) : Py unit := ([s], inr tt).

Definition bind {A B} (m : Py A) (f : A → Py B) : Py B :=
  match m with
  | (out, inl e) => (out, inl e)
  | (out, inr x) => let '(out', r) := f x in ((out ++ out')%list, r)
  end.

Notation "'run' x <- m 'in' k" := (bind m (fun x => k))
  (at level 10, x name, m at level 100, k at level 200,
   format "'[v' 'run'  x  <-  m  'in' '/' k ']'").
Notation "'run' ' p <- m 'in' k" := (bind m (fun x => let 'p := x in k))
  (at level 10, p pattern, m at level 100, k at level 200,
   format "'[v' 'run'  ' p  <-  m  'in' '/' k ']'").

Definition stdout {A} (m : Py A) : list string := fst m.
Definition outcome {A} (m : Py A) : exn + A := snd m.

(** [l[i]] on a Python list: negative indices count from the end,
    anything outside [-len, len) raises [IndexError]. *)
Definition py_getitem {A} (l : list A) (i : Z) : Py A :=
  let n := Z.of_nat (length l) in
  let j := if (i <? 0)%Z then (i + n)%Z else i in
  if ((0 <=? j) && (j <? n))%Z then
    match l !! Z.to_nat j with
    | Some x => ret x
    | None => raise IndexError
    end
  else raise IndexError.

(** [s[a:b]] on a Python string (step 1): both bounds are clamped into
    [0, len] after negative bounds are shifted by [len]. *)
Definition py_slice_bound (len i : Z) : Z :=
  if (i <? 0)%Z then Z.max (i + len) 0 else Z.min i len.

Definition py_slice (s : string) (a b : Z) : string :=
  let len := Z.of_nat (String.length s) in
  let lo := py_slice_bound len a in
  let hi := py_slice_bound len b in
  String.substring (Z.to_nat lo) (Z.to_nat (hi - lo)) s.

(** [os.path.join a b] (posixpath, two components). *)
Definition ends_with_slash (a : string) : bool :=
  match String.get (String.length a - 1) a with
  | Some c => bool_decide (c = "/"%char)
  | None => false
  end.

Definition os_path_join (a b : string) : string :=
  match b with
  | String c _ =>
      if bool_decide (c = "/"%char) then b
      else if bool_decide (a = ""%string) || ends_with_slash a
           then (a +:+ b)%string
           else (a +:+ "/" +:+ b)%string
  | EmptyString =>
      if bool_decide (a = ""%string) || ends_with_slash a
      then a else (a +:+ "/")%string
  end.

(** ** numpy arrays *)

(** A 3-D array carries its shape: a stack of zero-height masks still
    knows how many channels it has. [nd_data] is indexed
    [axis 0][axis 1][axis 2]. *)
Record ndarray3 (A : Type) : Type := Nd3 {
  nd_shape : nat * nat * nat;
  nd_data : list (list (list A))
}.
Arguments Nd3 {A} _ _.
Arguments nd_shape {A} _.
Arguments nd_data {A} _.

Definition np_shape2 {A} (m : list (list A)) : nat * nat :=
  (length m, match m with [] => 0 | r :: _ => length r end).

Definition has_shape2 {A} (h w : nat) (m : list (list A)) : bool :=
  (length m =? h) && forallb (fun r => length r =? w) m.

(** The entries of [np.dstack] of a non-empty sequence of 2-D arrays:
    entry [r][c] collects, in order, the [r][c] entries of the arrays. *)
Fixpoint dstack_data {A} (m : list (list A)) (ms : list (list (list A)))
  : list (list (list A)) :=
  match ms with
  | [] => map (map (fun x => [x])) m
  | m' :: ms' => zip_with (zip_with cons) m (dstack_data m' ms')
  end.

(** [np.dstack(seq)]: the 2-D arrays of [seq], each of shape (H, W), are
    stacked along a new third axis, giving shape (H, W, len(seq)). An
    empty sequence and arrays of different shapes raise [ValueError]. *)
Definition np_dstack {A} (ms : list (list (list A))) : Py (ndarray3 A) :=
  match ms with
  | [] => raise ValueError
  | m :: ms' =>
      let '(h, w) := np_shape2 m in
      if forallb (has_shape2 h w) ms then
        ret (Nd3 (h, w, length ms) (dstack_data m ms'))
      else raise ValueError
  end.

(** Entry [r][c] of a 2-D array and entry [r][c][i] of the data of a 3-D
    array, when the indices are in range. *)
Definition at2 {A} (m : list (list A)) (r c : nat) : option A :=
  match m !! r with
  | Some row => row !! c
  | None => None
  end.

Definition at3 {A} (d : list (list (list A))) (r c i : nat) : option A :=
  match at2 d r c with
  | Some cell => cell !! i
  | None => None
  end.

(** A 2-D array of [h] rows of [w] entries. *)
Definition shaped {A} (h w : nat) (m : list (list A)) : Prop :=
  length m = h ∧ Forall (fun row => length row = w) m.

(** The data of a 3-D array fills its shape. *)
Definition wf_shape3 {A} (s : ndarray3 A) : Prop :=
  length (nd_data s) = (nd_shape s).1.1 ∧
  Forall (fun row =>
    length row = (nd_shape s).1.2 ∧
    Forall (fun cell => length cell = (nd_shape s).2) row) (nd_data s).

(** [a[r, c, i]], false outside the array. *)
Definition px (s : ndarray3 bool) (r c i : nat) : bool :=
  default false (at3 (nd_data s) r c i).

(** ** The helpers of [my_utils] *)

(** Columns 0..3 of a row of the (N, 4) box array. *)
Record Box : Type := mkBox { x0 : Z; y0 : Z; x1 : Z; y1 : Z }.

(** The column indices, and the row indices, at which channel [i] of the
    stack has a true pixel, ascending; the box of the channel reduces
    them with min and max. *)
Definition true_cols (s : ndarray3 bool) (i : nat) : list nat :=
  let '(h, w, _) := nd_shape s in
  List.filter (fun c => existsb (fun r => px s r c i) (seq 0 h)) (seq 0 w).

Definition true_rows (s : ndarray3 bool) (i : nat) : list nat :=
  let '(h, w, _) := nd_shape s in
  List.filter (fun r => existsb (fun c => px s r c i) (seq 0 w)) (seq 0 h).

Definition bbox_of_channel (s : ndarray3 bool) (i : nat) : Box :=
  match true_cols s i, true_rows s i with
  | c :: cs, r :: rs =>
      mkBox (Z.of_nat (foldr Nat.min c cs)) (Z.of_nat (foldr Nat.min r rs))
            (Z.of_nat (foldr Nat.max c cs) + 1) (Z.of_nat (foldr Nat.max r rs) + 1)
  | _, _ => mkBox 0 0 0 0
  end.

(** Modelled from the spec: [my_utils.extract_bboxes_from_mask] is not
    among the sources. Spec 4.2: one box per instance, x0/x1 the min/max
    column index where the mask is true, y0/y1 the min/max row index,
    upper bounds exclusive (max index + 1), computed by reducing the sets
    of true rows and true columns with min/max; a mask with no true pixel
    gets the zero-area sentinel box that the callers filter afterwards.
    The layout of the argument is the one both call sites produce with
    [np.dstack]: the instances are along the last axis. *)
Definition extract_bboxes_from_mask (s : ndarray3 bool) : list Box :=
  let '(_, _, n) := nd_shape s in
  map (bbox_of_channel s) (seq 0 n).

(** The distinct non-zero values of a label image, ascending. *)
Definition cluster_values (img : list (list Z)) : list Z :=
  merge_sort Z.le
    (remove_dups (List.filter (fun v => negb (v =? 0)%Z) (concat img))).

Definition cluster_mask (img : list (list Z)) (v : Z) : list (list bool) :=
  map (map (fun p => (p =? v)%Z)) img.

(** Modelled from the spec: [my_utils.extract_masks_from_cluster] is not
    among the sources. Spec 4.1, for the call
    [extract_masks_from_cluster(mask, bool_array=True, ch_first=True)]:
    one boolean mask per distinct non-zero value of the label image, in
    ascending value order, each obtained by an equality test against the
    cluster value; instances along the first axis. *)
Definition extract_masks_from_cluster (img : list (list Z))
  : list (list (list bool)) :=
  map (cluster_mask img) (cluster_values img).

(** ** External collaborators *)

(** A decoded image: rows of pixels, a pixel being its channel values. *)
Definition PILImage : Type := list (list (list Z)).

(** The sample record handed to the training loop. *)
Record Target : Type := mkTarget {
  boxes : list Box;
  labels : list Z;
  masks : list (list (list Z));
  image_id : list Z;
  area : list Z;
  iscrowd : list Z
}.

(** One COCO annotation record that conforms to the COCO schema: it has
    the keys [iscrowd] and [area] the adapter reads (a record without
    them, on which the reads raise KeyError, is not represented). The
    segmentation is kept as the binary mask [coco.annToMask] decodes it
    to. *)
Record Ann : Type := mkAnn {
  ann_iscrowd : Z;
  ann_area : Z;
  ann_mask : list (list bool)
}.

Record ImgObj : Type := mkImgObj { file_name : string }.

(** A parsed annotation file: the [imgs] dictionary of [pycocotools] and
    its [imgToAnns] index. *)
Record COCO : Type := mkCOCO {
  imgs : gmap Z ImgObj;
  imgToAnns : gmap Z (list Ann)
}.

(** What is on disk: image files as [Image.open] decodes them, label
    images as [load_image_as_np_array] decodes them, annotation files as
    [COCO(...)] parses them. *)
Record World : Type := mkWorld {
  image_files : gmap string PILImage;
  convert_RGB : PILImage → PILImage;
  label_files : gmap string (list (list Z));
  annotation_files : gmap string COCO
}.

(** [Image.open(path)]: the decoded image of a file in [image_files],
    FileNotFoundError for a path that is not there. A file that exists
    but does not decode is not represented: [image_files] holds the files
    that open. *)
Definition Image_open (w : World) (path : string) : Py PILImage :=
  match image_files w !! path with
  | Some img => ret img
  | None => raise FileNotFoundError
  end.

(** Modelled from the spec: [my_utils.load_image_as_np_array] is not
    among the sources. It decodes the label file at [path] into the label
    image of spec 3, a 2-D grid of integer cluster identifiers; a missing
    file raises. *)
Definition load_image_as_np_array (w : World) (path : string)
  : Py (list (list Z)) :=
  match label_files w !! path with
  | Some a => ret a
  | None => raise FileNotFoundError
  end.

(** [COCO(ann_file)]: the parsed annotation file. The progress lines the
    loader prints while it parses (one of them a timing) are not
    represented. *)
Definition COCO_load (w : World) (ann_file : string) : Py COCO :=
  match annotation_files w !! ann_file with
  | Some c => ret c
  | None => raise FileNotFoundError
  end.

(** [coco.getImgIds()]: the keys of [imgs]. *)
Definition getImgIds (c : COCO) : list Z := (map_to_list (imgs c)).*1.

(** [coco.loadImgs(image_id)[0]]. *)
Definition loadImgs0 (c : COCO) (id : Z) : Py ImgObj :=
  match imgs c !! id with
  | Some o => ret o
  | None => raise KeyError
  end.

(** [coco.loadAnns(coco.getAnnIds(image_id))]: the records indexed under
    the image, none when the image has no entry (annotation ids are
    unique, as the COCO schema requires, so going through the ids gives
    back the records of [imgToAnns]). *)
Definition loadAnns_of (c : COCO) (id : Z) : list Ann :=
  default [] (imgToAnns c !! id).

Definition annToMask (obj : Ann) : list (list bool) := ann_mask obj.

Definition sorted (l : list Z) : list Z := merge_sort Z.le l.

(** [torch.as_tensor(m, dtype=torch.uint8)] on a boolean stack. *)
Definition as_uint8 (ms : list (list (list bool))) : list (list (list Z)) :=
  map (map (map Z.b2z)) ms.

(** [t[keep]] with a boolean index tensor: the entries whose flag is set;
    the index must be as long as the tensor. *)
Fixpoint select {A} (l : list A) (keep : list bool) : list A :=
  match l, keep with
  | x :: l', k :: keep' => if k then x :: select l' keep' else select l' keep'
  | _, _ => []
  end.

Definition mask_index {A} (l : list A) (keep : list bool) : Py (list A) :=
  if length l =? length keep then ret (select l keep) else raise IndexError.

(** Rounding of an integer to [float32]: to the nearest number with a
    24-bit significand, ties to the even significand. Integers up to
    2^24 in absolute value are exact. (Overflow to infinity, beyond
    2^127, is out of reach of array dimensions and is not represented.) *)
Definition f32 (z : Z) : Z :=
  let a := Z.abs z in
  if (a <? 2 ^ 24)%Z then z
  else
    let e := (Z.log2 a - 23)%Z in
    let q := (a / 2 ^ e)%Z in
    let r := (a mod 2 ^ e)%Z in
    let half := (2 ^ (e - 1))%Z in
    let q' := if (r <? half)%Z then q
              else if (half <? r)%Z then (q + 1)%Z
              else if Z.even q then q else (q + 1)%Z in
    (Z.sgn z * (q' * 2 ^ e))%Z.

(** [torch.as_tensor(bboxes, dtype=torch.float32)]. *)
Definition as_float32 (bs : list Box) : list Box :=
  map (fun b => mkBox (f32 (x0 b)) (f32 (y0 b)) (f32 (x1 b)) (f32 (y1 b))) bs.

(** [(boxes[:, 3] - boxes[:, 1]) * (boxes[:, 2] - boxes[:, 0])] for one
    row of a [float32] box tensor: both differences and the product are
    rounded. *)
Definition box_area_f32 (b : Box) : Z :=
  f32 (f32 (y1 b - y0 b) * f32 (x1 b - x0 b)).

(** [if self.transforms is not None: img, target = self.transforms(img,
    target)]: the caller-supplied transform, when there is one. *)
Definition apply_transforms
    (transforms : option (PILImage * Target → PILImage * Target))
    (sample : PILImage * Target) : PILImage * Target :=
  match transforms with
  | Some f => f sample
  | None => sample
  end.

(** ** EdfDataset *)

Module EdfDataset.

Record t : Type := mk {
  img_paths : list string;
  mask_paths : list string;
  transforms : option (PILImage * Target → PILImage * Target)
}.

(** Lines 39-43 up to the call of the box extractor: the image, the
    instance masks and the array [np.dstack(mask_ch_first)] the
    extractor is called on. *)
Definition bbox_extractor_argument (w : World) (self : t) (idx : Z)
  : Py (PILImage * list (list (list bool)) * ndarray3 bool) :=
  run ip <- py_getitem (img_paths self) idx in
  run opened <- Image_open w ip in
  let img := convert_RGB w opened in
  run mp <- py_getitem (mask_paths self) idx in
  run mask <- load_image_as_np_array w mp in
  let mask_ch_first := extract_masks_from_cluster mask in
  run stacked <- np_dstack mask_ch_first in
  ret (img, mask_ch_first, stacked).

Definition __getitem__ (w : World) (self : t) (idx : Z)
  : Py (PILImage * Target) :=
  run '(img, mask_ch_first, stacked) <- bbox_extractor_argument w self idx in
  let bboxes := extract_bboxes_from_mask stacked in
  let num_instaces := length mask_ch_first in
  let boxes := as_float32 bboxes in
  let labels := replicate num_instaces 1%Z in
  let masks := as_uint8 mask_ch_first in
  let image_id := [idx] in
  let area := map box_area_f32 boxes in
  let iscrowd := replicate num_instaces 0%Z in
  let target := mkTarget boxes labels masks image_id area iscrowd in
  ret (apply_transforms (transforms self) (img, target)).

Definition __len__ (self : t) : nat := length (img_paths self).

Definition mismatch (p : string * string) : bool :=
  negb (String.eqb (py_slice p.1 (-9) (-4)) (py_slice p.2 (-9) (-4))).

Fixpoint check_loop (pairs : list (string * string)) : Py unit :=
  match pairs with
  | [] => ret tt
  | p :: rest =>
      if mismatch p then print "Image and label do not match."%string
      else check_loop rest
  end.

Definition check (self : t) : Py unit :=
  check_loop (zip (img_paths self) (mask_paths self)).

End EdfDataset.

(** ** CrowdDataset *)

Module CrowdDataset.

Record t : Type := mk {
  imgs_dir : string;
  coco : COCO;
  img_ids : list Z;
  transforms : option (PILImage * Target → PILImage * Target)
}.

Definition __init__ (w : World) (dataset_dir subset : string)
    (transforms : option (PILImage * Target → PILImage * Target))
    (load_small : bool) : Py t :=
  let dataset_path := os_path_join dataset_dir subset in
  let ann_file :=
    if load_small
    then os_path_join dataset_path "annotation-small.json"%string
    else os_path_join dataset_path "annotation.json"%string in
  let imgs_dir := os_path_join dataset_path "images"%string in
  run coco <- COCO_load w ann_file in
  ret (mk imgs_dir coco (sorted (getImgIds coco)) transforms).

Definition keep_flag (b : Box) : bool :=
  ((y1 b >? y0 b) && (x1 b >? x0 b))%Z.

(** Lines 106-124 up to the call of the box extractor. *)
Definition bbox_extractor_argument (w : World) (self : t) (idx : Z)
  : Py (Z * PILImage * list Ann * ndarray3 bool) :=
  run image_id <- py_getitem (img_ids self) idx in
  run img_obj <- loadImgs0 (coco self) image_id in
  run image <- Image_open w (os_path_join (imgs_dir self) (file_name img_obj)) in
  let anno := loadAnns_of (coco self) image_id in
  let anno := List.filter (fun obj => (ann_iscrowd obj =? 0)%Z) anno in
  let masks_np := map annToMask anno in
  run stacked <- np_dstack masks_np in
  ret (image_id, image, anno, stacked).

Definition __getitem__ (w : World) (self : t) (idx : Z)
  : Py (PILImage * Target) :=
  run '(image_id, image, anno, stacked) <- bbox_extractor_argument w self idx in
  let classes := replicate (length anno) 1%Z in
  let masks := as_uint8 (map annToMask anno) in
  let boxes := extract_bboxes_from_mask stacked in
  let keep := map keep_flag boxes in
  run boxes <- mask_index boxes keep in
  run classes <- mask_index classes keep in
  run masks <- mask_index masks keep in
  let area := map ann_area anno in
  let iscrowd := map ann_iscrowd anno in
  let target := mkTarget boxes classes masks [image_id] area iscrowd in
  ret (apply_transforms (transforms self) (image, target)).

Definition __len__ (self : t) : nat := length (img_ids self).

End CrowdDataset.

(** The same datasets with no transform configured. *)
Definition Edf_without_transforms (self : EdfDataset.t) : EdfDataset.t :=
  EdfDataset.mk (EdfDataset.img_paths self) (EdfDataset.mask_paths self) None.

Definition Crowd_without_transforms (self : CrowdDataset.t) : CrowdDataset.t :=
  CrowdDataset.mk (CrowdDataset.imgs_dir self) (CrowdDataset.coco self)
    (CrowdDataset.img_ids self) None.

(** [x] is the element of [ids] that has exactly [i] smaller elements:
    the [i]-th smallest, counting from 0 as indices do. *)
Definition ith_smallest (ids : gset Z) (i : Z) (x : Z) : Prop :=
  x ∈ ids ∧ Z.of_nat (size (filter (fun y => (y < x)%Z) ids)) = i.

(** The set of distinct non-zero values occurring in a label image. *)
Definition nonzero_values (img : list (list Z)) : gset Z :=
  list_to_set (List.filter (fun v => negb (v =? 0)%Z) (concat img)).

(** [m[r, c]] of a 2-D mask, false outside it. *)
Definition mask_px (m : list (list bool)) (r c : nat) : bool :=
  default false (at2 m r c).

(** [st] is the sequence [ms] of (H, W) masks stacked along the last
    axis: shape (H, W, len ms), entry [r][c][i] being entry [r][c] of the
    [i]-th mask. *)
Definition stacked_last_axis (ms : list (list (list bool)))
    (st : ndarray3 bool) : Prop :=
  ∃ h w,
    nd_shape st = (h, w, length ms) ∧ 0 < length ms ∧
    Forall (shaped h w) ms ∧
    wf_shape3 st ∧
    ∀ i m r c, ms !! i = Some m → at3 (nd_data st) r c i = at2 m r c.

(** Two 2-D arrays with as many rows, and rows of the same lengths. *)
Definition same_shape {A B} (m : list (list A)) (img : list (list B)) : Prop :=
  Forall2 (fun a b => length a = length b) m img.

(** Column [c] (row [r]) of channel [i] holds a true pixel. *)
Definition col_true (s : ndarray3 bool) (i c : nat) : Prop :=
  c < (nd_shape s).1.2 ∧ ∃ r, r < (nd_shape s).1.1 ∧ px s r c i = true.
Definition row_true (s : ndarray3 bool) (i r : nat) : Prop :=
  r < (nd_shape s).1.1 ∧ ∃ c, c < (nd_shape s).1.2 ∧ px s r c i = true.

(** ** Concrete data *)

(** The label image of the spec's example: 10 x 10, value 1 on rows 2-4
    and columns 3-5. *)
Definition label_10x10 : list (list Z) :=
  map (fun r => map (fun c =>
      if ((2 <=? r) && (r <=? 4) && (3 <=? c) && (c <=? 5))%nat
      then 1%Z else 0%Z) (seq 0 10)) (seq 0 10).

(** A stack of one 2 x 3 mask. *)
Definition sample_stack : ndarray3 bool :=
  Nd3 (2, 3, 1) [[[false]; [true]; [true]]; [[false]; [false]; [true]]].

Definition label_2x3 : list (list Z) := [[5; 0; 2]; [2; 0; 5]]%Z.

(** Two annotation sources. Image 7 has an annotation whose polygon
    covers no pixel, a regular one and a crowd one; image 3 has no
    annotation at all. *)
Definition empty_ann : Ann := mkAnn 0 7 [[false; false]; [false; false]].
Definition plain_ann : Ann := mkAnn 0 9 [[false; true]; [false; true]].
Definition crowd_ann : Ann := mkAnn 1 4 [[true; true]; [false; true]].

Definition sample_coco : COCO :=
  mkCOCO {[ 7%Z := mkImgObj "x.jpg"; 3%Z := mkImgObj "y.jpg" ]}
         {[ 7%Z := [empty_ann; plain_ann; crowd_ann] ]}.

Definition sample_world : World :=
  mkWorld {[ "d/image/a_00001.png"%string := [[[0%Z; 0%Z; 0%Z]]];
             "e/image/b_00001.png"%string := [[[3%Z; 3%Z; 3%Z]]];
             "r/val/images/x.jpg"%string := [[[1%Z; 1%Z; 1%Z]]];
             "r/val/images/y.jpg"%string := [[[2%Z; 2%Z; 2%Z]]] ]}
          id
          {[ "d/label/a_00001.png"%string := label_10x10;
             "e/label/b_00001.png"%string := label_2x3 ]}
          {[ "r/val/annotation.json"%string := sample_coco ]}.

Definition sample_edf : EdfDataset.t :=
  EdfDataset.mk ["d/image/a_00001.png"%string] ["d/label/a_00001.png"%string] None.

Definition edf_2x3 : EdfDataset.t :=
  EdfDataset.mk ["e/image/b_00001.png"%string] ["e/label/b_00001.png"%string] None.

Definition sample_crowd : CrowdDataset.t :=
  CrowdDataset.mk "r/val/images" sample_coco [3%Z; 7%Z] None.

(** Two of the three pairs disagree on the five characters before the
    extension. *)
Definition mismatched_edf : EdfDataset.t :=
  EdfDataset.mk
    ["d/image/a_00001.png"; "d/image/a_00002.png"; "d/image/a_00003.png"]%string
    ["d/label/a_00001.png"; "d/label/a_00007.png"; "d/label/a_00009.png"]%string
    None.

(** ** Further definitions *)

(** A binary mask with at least one set pixel. *)
Definition mask_nonempty (m : list (list bool)) : bool :=
  existsb (existsb (fun b => b)) m.

(** A non-degenerate box inside an image of [H] rows and [W] columns. *)
Definition in_bounds (H W : nat) (b : Box) : Prop :=
  (0 ≤ x0 b < x1 b)%Z ∧ (x1 b ≤ Z.of_nat W)%Z ∧
  (0 ≤ y0 b < y1 b)%Z ∧ (y1 b ≤ Z.of_nat H)%Z.

(** A local dataset with two images and one label. *)
Definition short_labels_edf : EdfDataset.t :=
  EdfDataset.mk ["d/image/a_00001.png"; "e/image/b_00001.png"]%string
                ["d/label/a_00001.png"%string] None.



(** A label image with background only. *)
Definition blank_world : World :=
  mkWorld {[ "b/image/c_00001.png"%string := [[[0%Z; 0%Z; 0%Z]]] ]} id
          {[ "b/label/c_00001.png"%string := [[0; 0; 0]; [0; 0; 0]]%Z ]} ∅.

Definition blank_edf : EdfDataset.t :=
  EdfDataset.mk ["b/image/c_00001.png"%string] ["b/label/c_00001.png"%string] None.

(** ** The constructor of EdfDataset *)

(** [os.listdir(d)]: the names in directory [d], in no particular order;
    a missing directory raises. *)
Definition os_listdir (dirs : gmap string (list string)) (d : string)
  : Py (list string) :=
  match dirs !! d with
  | Some names => ret names
  | None => raise FileNotFoundError
  end.

(** [sorted] on strings: ascending in the lexicographic order of the
    characters' codes. *)
Definition sorted_str (l : list string) : list string := merge_sort String.le l.

Module EdfDatasetInit.

Definition __init__ (dirs : gmap string (list string)) (dataset_dir : string)
    (transforms : option (PILImage * Target → PILImage * Target))
  : Py EdfDataset.t :=
  let img_dir := os_path_join dataset_dir "image"%string in
  let label_dir := os_path_join dataset_dir "label"%string in
  run imgs <- os_listdir dirs img_dir in
  let img_paths := map (os_path_join img_dir) (sorted_str imgs) in
  run lbls <- os_listdir dirs label_dir in
  let mask_paths := map (os_path_join label_dir) (sorted_str lbls) in
  ret (EdfDataset.mk img_paths mask_paths transforms).

End EdfDatasetInit.

(** A file name as a directory listing gives it: not empty, and not
    starting with a slash. *)
Definition is_basename (n : string) : bool :=
  match n with
  | String c _ => negb (bool_decide (c = "/"%char))
  | EmptyString => false
  end.

(** What [os.path.join] puts in front of a file name. *)
Definition dir_prefix (d : string) : string :=
  if bool_decide (d = ""%string) || ends_with_slash d then d else d +:+ "/".

(** Two directory listings with the same names in different orders. *)
Definition sample_dirs : gmap string (list string) :=
  {[ "data/image"%string := ["tile_00002.png"; "tile_00001.png"]%string;
     "data/label"%string := ["tile_00001.png"; "tile_00002.png"]%string ]}.

Definition short_dirs : gmap string (list string) :=
  {[ "data/image"%string := ["2.png"; "1.png"]%string;
     "data/label"%string := ["1.png"; "2.png"]%string ]}.

(** ** The sample handed to the transform *)

(** [(img, t)] is the sample an access assembles before the transform
    step, that is the result of the same access on the dataset without
    transform, and [res], the result of the access, is that sample
    passed through the configured transform, when there is one. *)
Definition Edf_assembled (w : World) (self : EdfDataset.t) (idx : Z)
    (out : list string) (res : PILImage * Target)
    (img : PILImage) (t : Target) : Prop :=
  EdfDataset.__getitem__ w (Edf_without_transforms self) idx
    = (out, inr (img, t)) ∧
  res = apply_transforms (EdfDataset.transforms self) (img, t).

Definition Crowd_assembled (w : World) (self : CrowdDataset.t) (idx : Z)
    (out : list string) (res : PILImage * Target)
    (img : PILImage) (t : Target) : Prop :=
  CrowdDataset.__getitem__ w (Crowd_without_transforms self) idx
    = (out, inr (img, t)) ∧
  res = apply_transforms (CrowdDataset.transforms self) (img, t).

(** The position a Python index denotes in a list of [len] entries:
    negative indices count from the end. *)
Definition py_position (len : nat) (i : Z) : Z :=
  if (i <? 0)%Z then (i + Z.of_nat len)%Z else i.


(** A label image of 4097 x 4097 pixels, all of cluster 1. *)
Definition big_label : list (list Z) := replicate 4097 (replicate 4097 1%Z).

Definition big_world : World :=
  mkWorld {[ "g/image/t_00001.png"%string := [[[0%Z; 0%Z; 0%Z]]] ]} id
          {[ "g/label/t_00001.png"%string := big_label ]} ∅.

Definition big_edf : EdfDataset.t :=
  EdfDataset.mk ["g/image/t_00001.png"%string] ["g/label/t_00001.png"%string] None.

(** * Properties *)

(** ** Computations *)

Section PyLemmas.
Context {A B : Type}.
Implicit Types (m : Py A) (f : A → Py B).

Lemma bind_inr m f out y :
  bind m f = (out, inr y) →
  ∃ o1 x o2, m = (o1, inr x) ∧ f x = (o2, inr y) ∧ out = (o1 ++ o2)%list.
Proof.
  unfold bind. destruct m as [o1 [e|x]]; [discriminate|].
  destruct (f x) as [o2 r] eqn:Hf. intros [= <- ->]. eauto 6.
Qed.

Lemma stdout_bind m f :
  stdout m = [] → (∀ x, stdout (f x) = []) → stdout (bind m f) = [].
Proof.
  unfold stdout, bind. destruct m as [o1 [e|x]]; simpl; intros -> Hf.
  - reflexivity.
  - specialize (Hf x). destruct (f x) as [o2 r]. exact Hf.
Qed.
End PyLemmas.

Lemma py_getitem_silent {A} (l : list A) i : stdout (py_getitem l i) = [].
Proof.
  unfold py_getitem. by repeat case_match.
Qed.

Lemma py_getitem_inr {A} (l : list A) i out x :
  py_getitem l i = (out, inr x) →
  out = [] ∧
  l !! Z.to_nat (if (i <? 0)%Z then (i + Z.of_nat (length l))%Z else i) = Some x.
Proof.
  unfold py_getitem. cbv zeta.
  destruct (_ && _)%bool; [|discriminate].
  destruct (l !! _) eqn:Hl; [|discriminate]. by intros [= <- <-].
Qed.

Lemma py_getitem_nonneg {A} (l : list A) i out x :
  (0 ≤ i)%Z → py_getitem l i = (out, inr x) → l !! Z.to_nat i = Some x.
Proof.
  intros Hi H. apply py_getitem_inr in H as [_ H].
  by destruct (Z.ltb_spec i 0); [lia|].
Qed.

Lemma lookup_silent {V} (o : option V) e out (x : V) :
  match o with Some v => ret v | None => raise e end = (out, inr x) →
  out = [] ∧ o = Some x.
Proof. destruct o; [|discriminate]. by intros [= <- <-]. Qed.

Lemma np_dstack_silent {A} (ms : list (list (list A))) : stdout (np_dstack ms) = [].
Proof.
  unfold np_dstack. destruct ms as [|m ms']; [done|].
  simpl. by case_match.
Qed.

(** A successful [np.dstack]: the sequence was not empty, its arrays share
    one shape (H, W), and the result has shape (H, W, len). *)
Lemma np_dstack_inr {A} (ms : list (list (list A))) out st :
  np_dstack ms = (out, inr st) →
  out = [] ∧
  ∃ m ms' h w,
    ms = m :: ms' ∧ np_shape2 m = (h, w) ∧
    forallb (has_shape2 h w) ms = true ∧
    st = Nd3 (h, w, length ms) (dstack_data m ms').
Proof.
  unfold np_dstack. destruct ms as [|m ms']; [discriminate|].
  destruct (np_shape2 m) as [h w] eqn:Hs.
  destruct (forallb (has_shape2 h w) (m :: ms')) eqn:Hall; [|discriminate].
  intros [= <- <-]. split; [done|]. by exists m, ms', h, w.
Qed.

Lemma mask_index_inr {A} (l : list A) keep out r :
  mask_index l keep = (out, inr r) →
  out = [] ∧ length l = length keep ∧ r = select l keep.
Proof.
  unfold mask_index. destruct (Nat.eqb_spec (length l) (length keep)); [|discriminate].
  by intros [= <- <-].
Qed.

Lemma mask_index_silent {A} (l : list A) keep : stdout (mask_index l keep) = [].
Proof. unfold mask_index. by case_match. Qed.

(** ** The box extractor returns one box per channel *)

Lemma length_extract_bboxes s :
  length (extract_bboxes_from_mask s) = (nd_shape s).2.
Proof.
  unfold extract_bboxes_from_mask. destruct (nd_shape s) as [[h w] n].
  by rewrite length_map, length_seq.
Qed.

(** ** EdfDataset: what a returned sample is made of *)

(** Every successful access without transforms went through a successful
    [np.dstack] of the instance masks and assembled the target from the
    extracted boxes. *)
Lemma Edf_getitem_inv w self idx out img t :
  EdfDataset.transforms self = None →
  EdfDataset.__getitem__ w self idx = (out, inr (img, t)) →
  ∃ mcf st,
    EdfDataset.bbox_extractor_argument w self idx = (out, inr (img, mcf, st)) ∧
    t = mkTarget (as_float32 (extract_bboxes_from_mask st))
          (replicate (length mcf) 1%Z) (as_uint8 mcf) [idx]
          (map box_area_f32 (as_float32 (extract_bboxes_from_mask st)))
          (replicate (length mcf) 0%Z).
Proof.
  intros Htr H. unfold EdfDataset.__getitem__ in H.
  apply bind_inr in H as (o1 & [[img' mcf] st] & o2 & Harg & Hrest & ->).
  rewrite Htr in Hrest. injection Hrest as <- <- <-.
  exists mcf, st. by rewrite app_nil_r.
Qed.

Lemma Edf_argument_inv w self idx out img mcf st :
  EdfDataset.bbox_extractor_argument w self idx = (out, inr (img, mcf, st)) →
  out = [] ∧ np_dstack mcf = ([], inr st) ∧
  ∃ mp mask, EdfDataset.mask_paths self !! Z.to_nat
               (if (idx <? 0)%Z
                then (idx + Z.of_nat (length (EdfDataset.mask_paths self)))%Z
                else idx) = Some mp ∧
             label_files w !! mp = Some mask ∧
             mcf = extract_masks_from_cluster mask.
Proof.
  unfold EdfDataset.bbox_extractor_argument. intros H.
  apply bind_inr in H as (o1 & ip & o1' & Hip & H & ->).
  apply py_getitem_inr in Hip as [-> _].
  apply bind_inr in H as (o2 & opened & o2' & Hop & H & ->).
  apply lookup_silent in Hop as [-> _].
  apply bind_inr in H as (o3 & mp & o3' & Hmp & H & ->).
  apply py_getitem_inr in Hmp as [-> Hmp].
  apply bind_inr in H as (o4 & mask & o4' & Hmask & H & ->).
  apply lookup_silent in Hmask as [-> Hmask].
  apply bind_inr in H as (o5 & st' & o5' & Hst & H & ->).
  pose proof (np_dstack_inr _ _ _ Hst) as [-> _].
  injection H as <- <- <- <-.
  split; [done|]. split; [done|]. eauto.
Qed.

Lemma Edf_getitem_silent w self idx :
  stdout (EdfDataset.__getitem__ w self idx) = [].
Proof.
  unfold EdfDataset.__getitem__, EdfDataset.bbox_extractor_argument.
  apply stdout_bind.
  - apply stdout_bind; [apply py_getitem_silent|]. intros ip.
    apply stdout_bind; [unfold Image_open; by case_match|]. intros opened.
    apply stdout_bind; [apply py_getitem_silent|]. intros mp.
    apply stdout_bind; [unfold load_image_as_np_array; by case_match|]. intros mask.
    apply stdout_bind; [apply np_dstack_silent|]. done.
  - by intros [[img mcf] st].
Qed.

(** A configured transform is applied last, to the sample the adapter
    assembles: the properties below are stated for that sample, which is
    what the dataset returns when no transform is configured. *)
Lemma Edf_getitem_transforms w self idx :
  EdfDataset.__getitem__ w self idx =
  (run sample <- EdfDataset.__getitem__ w (Edf_without_transforms self) idx in
   ret (apply_transforms (EdfDataset.transforms self) sample)).
Proof.
  unfold EdfDataset.__getitem__.
  change (EdfDataset.bbox_extractor_argument w (Edf_without_transforms self) idx)
    with (EdfDataset.bbox_extractor_argument w self idx).
  destruct (EdfDataset.bbox_extractor_argument w self idx)
    as [o [e|[[img mcf] st]]]; simpl; [done|].
  by rewrite !app_nil_r.
Qed.

(** The local adapter keeps the five per-instance arrays aligned. *)
Lemma Edf_cardinality w self idx out img t :
  EdfDataset.transforms self = None →
  EdfDataset.__getitem__ w self idx = (out, inr (img, t)) →
  length (labels t) = length (boxes t) ∧
  length (masks t) = length (boxes t) ∧
  length (area t) = length (boxes t) ∧
  length (iscrowd t) = length (boxes t).
Proof.
  intros Htr H. apply Edf_getitem_inv in H as (mcf & st & Harg & ->); [|done].
  apply Edf_argument_inv in Harg as (_ & Hst & _).
  apply np_dstack_inr in Hst as (_ & m & ms' & h & w' & -> & _ & _ & ->).
  cbn [labels boxes masks area iscrowd].
  unfold as_uint8, as_float32.
  rewrite !length_replicate, !length_map, length_extract_bboxes.
  cbn [nd_shape snd]. auto.
Qed.

(** ** The consistency check *)

Lemma check_loop_outcome pairs : outcome (EdfDataset.check_loop pairs) = inr tt.
Proof.
  induction pairs as [|p rest IH]; [done|].
  simpl. by destruct (EdfDataset.mismatch p).
Qed.

Lemma check_loop_stdout pairs :
  stdout (EdfDataset.check_loop pairs) =
  if existsb EdfDataset.mismatch pairs
  then ["Image and label do not match."%string] else [].
Proof.
  induction pairs as [|p rest IH]; [done|].
  simpl. by destruct (EdfDataset.mismatch p).
Qed.

Lemma check_loop_stops pre p rest :
  forallb (fun q => negb (EdfDataset.mismatch q)) pre = true →
  EdfDataset.mismatch p = true →
  EdfDataset.check_loop (pre ++ p :: rest) = EdfDataset.check_loop (pre ++ [p]).
Proof.
  induction pre as [|q pre IH]; simpl.
  - by intros _ ->.
  - destruct (EdfDataset.mismatch q); [discriminate|]. exact IH.
Qed.

(** C9, as stated, fails: with two mismatching pairs in the lists the
    check prints one warning, not one per mismatch. *)
Lemma check_reports_every_mismatch_fails :
  length (stdout (EdfDataset.check mismatched_edf)) = 1 ∧
  length (List.filter EdfDataset.mismatch
            (zip (EdfDataset.img_paths mismatched_edf)
                 (EdfDataset.mask_paths mismatched_edf))) = 2 ∧
  length (stdout (EdfDataset.check mismatched_edf)) ≠
  length (List.filter EdfDataset.mismatch
            (zip (EdfDataset.img_paths mismatched_edf)
                 (EdfDataset.mask_paths mismatched_edf))).
Proof. split; [|split]; vm_compute; [reflexivity|reflexivity|discriminate]. Qed.

(** C9, amended. The check walks the paired lists in order and stops at
    the first pair whose [-9:-4] substrings differ: it never raises, it
    prints the warning once when some pair mismatches and nothing
    otherwise, the pairs after the first mismatch are not looked at, and
    sample retrieval prints nothing (it does not run the check). *)
Theorem check_warns_once_and_stops (w : World) (self : EdfDataset.t) (idx : Z) :
  outcome (EdfDataset.check self) = inr tt ∧
  stdout (EdfDataset.check self) =
    (if existsb EdfDataset.mismatch
          (zip (EdfDataset.img_paths self) (EdfDataset.mask_paths self))
     then ["Image and label do not match."%string] else []) ∧
  (∀ pre p rest,
     forallb (fun q => negb (EdfDataset.mismatch q)) pre = true →
     EdfDataset.mismatch p = true →
     EdfDataset.check_loop (pre ++ p :: rest) =
     EdfDataset.check_loop (pre ++ [p])) ∧
  stdout (EdfDataset.__getitem__ w self idx) = [].
Proof.
  split; [apply check_loop_outcome|].
  split; [apply check_loop_stdout|].
  split; [apply check_loop_stops|].
  apply Edf_getitem_silent.
Qed.

(** ** CrowdDataset: what a returned sample is made of *)

Lemma select_map_flags {A} (f : A → bool) (l : list A) :
  select l (map f l) = List.filter f l.
Proof. induction l as [|x l IH]; [done|]. simpl. by rewrite IH. Qed.

Lemma select_map {A B} (g : A → B) (l : list A) keep :
  select (map g l) keep = map g (select l keep).
Proof.
  revert keep. induction l as [|x l IH]; intros [|k keep]; try done.
  simpl. destruct k; simpl; by rewrite IH.
Qed.

Lemma select_sublist {A} (l : list A) keep : sublist (select l keep) l.
Proof.
  revert keep. induction l as [|x l IH]; intros keep.
  - destruct keep; constructor.
  - destruct keep as [|[] keep]; simpl.
    + apply sublist_nil_l.
    + by apply sublist_skip.
    + by apply sublist_cons.
Qed.

Lemma select_length_eq {A B} (l : list A) (l' : list B) keep :
  length l = length l' → length (select l keep) = length (select l' keep).
Proof.
  revert l' keep. induction l as [|x l IH]; intros [|y l'] keep; try done.
  intros [= Hlen]. destruct keep as [|[] keep]; simpl; auto.
Qed.

Lemma select_Forall {A} (P : A → Prop) (l : list A) keep :
  Forall P l → Forall P (select l keep).
Proof.
  intros H. revert keep. induction H as [|x l Hx Hl IH]; intros keep.
  - destruct keep; constructor.
  - destruct keep as [|[] keep]; simpl; [constructor| |]; auto.
Qed.

Lemma filter_sublist_bool {A} (f : A → bool) (l : list A) :
  sublist (List.filter f l) l.
Proof.
  induction l as [|x l IH]; simpl; [constructor|].
  destruct (f x); by constructor.
Qed.

Lemma Crowd_argument_inv w self idx out id image anno st :
  CrowdDataset.bbox_extractor_argument w self idx = (out, inr (id, image, anno, st)) →
  out = [] ∧
  py_getitem (CrowdDataset.img_ids self) idx = ([], inr id) ∧
  Image_open w (os_path_join (CrowdDataset.imgs_dir self)
                  (default (mkImgObj "") (imgs (CrowdDataset.coco self) !! id)).(file_name))
    = ([], inr image) ∧
  anno = List.filter (fun obj => (ann_iscrowd obj =? 0)%Z)
           (loadAnns_of (CrowdDataset.coco self) id) ∧
  np_dstack (map annToMask anno) = ([], inr st).
Proof.
  unfold CrowdDataset.bbox_extractor_argument. intros H.
  apply bind_inr in H as (o1 & id' & o1' & Hid & H & ->).
  pose proof (py_getitem_inr _ _ _ _ Hid) as [-> _].
  apply bind_inr in H as (o2 & obj & o2' & Hobj & H & ->).
  apply lookup_silent in Hobj as [-> Hobj].
  apply bind_inr in H as (o3 & image' & o3' & Him & H & ->).
  pose proof Him as Him'. unfold Image_open in Him'.
  apply lookup_silent in Him' as [-> _].
  apply bind_inr in H as (o4 & st' & o4' & Hst & H & ->).
  pose proof (np_dstack_inr _ _ _ Hst) as [-> _].
  injection H as <- <- <- <- <-.
  rewrite Hobj. done.
Qed.

Lemma Crowd_getitem_inv w self idx out img t :
  CrowdDataset.transforms self = None →
  CrowdDataset.__getitem__ w self idx = (out, inr (img, t)) →
  ∃ id anno st,
    CrowdDataset.bbox_extractor_argument w self idx = ([], inr (id, img, anno, st)) ∧
    out = [] ∧
    let bxs := extract_bboxes_from_mask st in
    let keep := map CrowdDataset.keep_flag bxs in
    length bxs = length anno ∧
    t = mkTarget (select bxs keep)
          (select (replicate (length anno) 1%Z) keep)
          (select (as_uint8 (map annToMask anno)) keep)
          [id] (map ann_area anno) (map ann_iscrowd anno).
Proof.
  intros Htr H. unfold CrowdDataset.__getitem__ in H.
  apply bind_inr in H as (o1 & [[[id img'] anno] st] & o2 & Harg & H & ->).
  pose proof (Crowd_argument_inv _ _ _ _ _ _ _ _ Harg) as (-> & _).
  apply bind_inr in H as (o3 & bxs & o3' & Hb & H & ->).
  apply mask_index_inr in Hb as (-> & _ & ->).
  apply bind_inr in H as (o4 & cls & o4' & Hc & H & ->).
  apply mask_index_inr in Hc as (-> & Hlen & ->).
  apply bind_inr in H as (o5 & mks & o5' & Hm & H & ->).
  apply mask_index_inr in Hm as (-> & _ & ->).
  rewrite Htr in H. injection H as <- <- <-.
  exists id, anno, st. split; [done|]. split; [done|]. cbv zeta.
  split; [|done].
  rewrite length_replicate, length_map in Hlen. done.
Qed.

Lemma Crowd_getitem_transforms w self idx :
  CrowdDataset.__getitem__ w self idx =
  (run sample <- CrowdDataset.__getitem__ w (Crowd_without_transforms self) idx in
   ret (apply_transforms (CrowdDataset.transforms self) sample)).
Proof.
  unfold CrowdDataset.__getitem__.
  change (CrowdDataset.bbox_extractor_argument w (Crowd_without_transforms self) idx)
    with (CrowdDataset.bbox_extractor_argument w self idx).
  destruct (CrowdDataset.bbox_extractor_argument w self idx)
    as [o [e|[[[id img] anno] st]]]; simpl; [done|].
  unfold mask_index.
  repeat (destruct (_ =? _); simpl; try done).
  by rewrite !app_nil_r.
Qed.

(** Without a transform: the emitted boxes are valid, the crowd flags
    are all 0, and the emitted masks are those of a sub-sequence of the
    non-crowd records of the image. *)
Lemma Crowd_plain_boxes_valid_no_crowd w self idx out img t :
  CrowdDataset.transforms self = None →
  CrowdDataset.__getitem__ w self idx = (out, inr (img, t)) →
  Forall (fun b => (x1 b > x0 b)%Z ∧ (y1 b > y0 b)%Z) (boxes t) ∧
  Forall (fun c => c ≠ 1%Z ∧ c = 0%Z) (iscrowd t) ∧
  ∃ id kept,
    image_id t = [id] ∧
    sublist kept (loadAnns_of (CrowdDataset.coco self) id) ∧
    Forall (fun obj => ann_iscrowd obj = 0%Z) kept ∧
    masks t = as_uint8 (map annToMask kept) ∧
    length (boxes t) = length kept.
Proof.
  intros Htr H.
  apply Crowd_getitem_inv in H as (id & anno & st & Harg & -> & Hlen & ->); [|done].
  apply Crowd_argument_inv in Harg as (_ & _ & _ & Hanno & _).
  cbn [boxes iscrowd masks image_id].
  assert (Hnc : Forall (fun obj => ann_iscrowd obj = 0%Z) anno).
  { rewrite Hanno. apply List.Forall_forall. intros obj Hin.
    apply List.filter_In in Hin as [_ Hz]. lia. }
  split; [|split].
  - rewrite select_map_flags. apply List.Forall_forall. intros b Hin.
    apply List.filter_In in Hin as [_ Hk]. unfold CrowdDataset.keep_flag in Hk.
    apply andb_true_iff in Hk as [Hy Hx]. lia.
  - apply Forall_fmap. eapply Forall_impl; [exact Hnc|].
    simpl. intros obj ->. done.
  - exists id, (select anno (map CrowdDataset.keep_flag (extract_bboxes_from_mask st))).
    split; [done|]. split.
    { etrans; [apply select_sublist|]. rewrite Hanno. apply filter_sublist_bool. }
    split; [by apply select_Forall|].
    split; [unfold as_uint8; by rewrite <- !select_map|].
    by apply select_length_eq.
Qed.

(** ** Image identifiers *)

Lemma StronglySorted_lookup_le (l : list Z) j k a b :
  StronglySorted Z.le l → l !! j = Some a → l !! k = Some b → j < k →
  (a ≤ b)%Z.
Proof.
  intros Hs. revert j k. induction Hs as [|x l Hs IH Hx]; intros j k Hj Hk Hlt.
  - by rewrite lookup_nil in Hj.
  - destruct k as [|k]; [lia|]. simpl in Hk.
    destruct j as [|j]; simpl in Hj.
    + injection Hj as ->. rewrite List.Forall_forall in Hx. apply Hx.
      apply list_elem_of_In. by eapply list_elem_of_lookup_2.
    + eapply IH; [done..|lia].
Qed.

(** In an ascending list without repetition, the entries below the one at
    position [n] are exactly the first [n]. *)
Lemma sorted_prefix_below (l : list Z) n x y :
  StronglySorted Z.le l → NoDup l → l !! n = Some x →
  (y ∈ l ∧ (y < x)%Z) ↔ y ∈ take n l.
Proof.
  intros Hs Hnd Hn. rewrite elem_of_take. split.
  - intros [Hy Hlt]. apply list_elem_of_lookup in Hy as [j Hj].
    exists j. split; [done|].
    destruct (decide (j < n)) as [|Hge]; [done|].
    destruct (decide (j = n)) as [->|Hne].
    { rewrite Hn in Hj. injection Hj as ->. lia. }
    assert (x ≤ y)%Z by (eapply (StronglySorted_lookup_le l n j); [done..|lia]).
    lia.
  - intros (j & Hj & Hlt). split; [by eapply list_elem_of_lookup_2|].
    assert (y ≤ x)%Z by (by eapply (StronglySorted_lookup_le l j n)).
    assert (y ≠ x).
    { intros ->. assert (j = n) by (by eapply NoDup_lookup). lia. }
    lia.
Qed.

Lemma sorted_ids_spec (c : COCO) :
  StronglySorted Z.le (sorted (getImgIds c)) ∧
  NoDup (sorted (getImgIds c)) ∧
  ∀ x, x ∈ sorted (getImgIds c) ↔ x ∈ dom (imgs c).
Proof.
  unfold sorted, getImgIds. split; [|split].
  - apply (StronglySorted_merge_sort Z.le).
  - rewrite merge_sort_Permutation. apply NoDup_fst_map_to_list.
  - intros x. rewrite merge_sort_Permutation, elem_of_dom.
    rewrite list_elem_of_fmap. split.
    + intros ([k v] & -> & Hin). apply elem_of_map_to_list in Hin. by exists v.
    + intros [v Hv]. exists (x, v). split; [done|]. by apply elem_of_map_to_list.
Qed.

(** The entry at position [n] of the sorted identifiers has exactly [n]
    smaller identifiers in the annotation source. *)
Lemma sorted_ids_ith (c : COCO) (n : nat) x :
  sorted (getImgIds c) !! n = Some x →
  ith_smallest (dom (imgs c)) (Z.of_nat n) x.
Proof.
  intros Hn. destruct (sorted_ids_spec c) as (Hs & Hnd & Hdom).
  split; [apply Hdom; by eapply list_elem_of_lookup_2|].
  f_equal. unfold size, set_size. simpl.
  assert (Hperm : elements (filter (fun y => (y < x)%Z) (dom (imgs c)))
                  ≡ₚ take n (sorted (getImgIds c))).
  { apply NoDup_Permutation.
    - apply NoDup_elements.
    - apply (sublist_NoDup _ _ Hnd), sublist_take.
    - intros y. rewrite elem_of_elements, elem_of_filter.
      rewrite <- (sorted_prefix_below _ n x y Hs Hnd Hn), Hdom. tauto. }
  rewrite Hperm. apply length_take_le.
  apply lookup_lt_Some in Hn. lia.
Qed.

Lemma Crowd_init_inv w dir subset tr small out self :
  CrowdDataset.__init__ w dir subset tr small = (out, inr self) →
  CrowdDataset.transforms self = tr ∧
  CrowdDataset.img_ids self = sorted (getImgIds (CrowdDataset.coco self)).
Proof.
  unfold CrowdDataset.__init__. intros H.
  apply bind_inr in H as (o1 & c & o2 & _ & H & _).
  by injection H as <- <-.
Qed.

(** ** The box extractor on non-empty masks *)

Lemma foldr_min_spec (c : nat) (cs : list nat) :
  In (foldr Nat.min c cs) (c :: cs) ∧
  ∀ y, In y (c :: cs) → foldr Nat.min c cs ≤ y.
Proof.
  induction cs as [|d cs [IHin IHle]]; simpl.
  - split; [by left|]. intros y [->|[]]. done.
  - split.
    + destruct (Nat.min_spec d (foldr Nat.min c cs)) as [[_ ->]|[_ ->]].
      * right. by left.
      * destruct IHin as [Hc|Hin]; [by left|]. right. by right.
    + intros y [<-|[<-|Hin]].
      * etrans; [apply Nat.le_min_r|]. apply IHle. by left.
      * apply Nat.le_min_l.
      * etrans; [apply Nat.le_min_r|]. apply IHle. by right.
Qed.

Lemma foldr_max_spec (c : nat) (cs : list nat) :
  In (foldr Nat.max c cs) (c :: cs) ∧
  ∀ y, In y (c :: cs) → y ≤ foldr Nat.max c cs.
Proof.
  induction cs as [|d cs [IHin IHle]]; simpl.
  - split; [by left|]. intros y [->|[]]. done.
  - split.
    + destruct (Nat.max_spec d (foldr Nat.max c cs)) as [[_ ->]|[_ ->]].
      * destruct IHin as [Hc|Hin]; [by left|]. right. by right.
      * right. by left.
    + intros y [<-|[<-|Hin]].
      * etrans; [|apply Nat.le_max_r]. apply IHle. by left.
      * apply Nat.le_max_l.
      * etrans; [|apply Nat.le_max_r]. apply IHle. by right.
Qed.

Lemma In_true_cols s i c : In c (true_cols s i) ↔ col_true s i c.
Proof.
  unfold true_cols, col_true. destruct (nd_shape s) as [[h w] n]. simpl.
  rewrite List.filter_In, List.in_seq, List.existsb_exists.
  split.
  - intros [Hc (r & Hr & Hp)]. apply List.in_seq in Hr.
    split; [lia|]. exists r. split; [lia|done].
  - intros [Hc (r & Hr & Hp)]. split; [lia|].
    exists r. split; [|done]. apply List.in_seq. lia.
Qed.

Lemma In_true_rows s i r : In r (true_rows s i) ↔ row_true s i r.
Proof.
  unfold true_rows, row_true. destruct (nd_shape s) as [[h w] n]. simpl.
  rewrite List.filter_In, List.in_seq, List.existsb_exists.
  split.
  - intros [Hr (c & Hc & Hp)]. apply List.in_seq in Hc.
    split; [lia|]. exists c. split; [lia|done].
  - intros [Hr (c & Hc & Hp)]. split; [lia|].
    exists c. split; [|done]. apply List.in_seq. lia.
Qed.

Lemma extract_bboxes_lookup s i :
  i < (nd_shape s).2 →
  extract_bboxes_from_mask s !! i = Some (bbox_of_channel s i).
Proof.
  unfold extract_bboxes_from_mask. destruct (nd_shape s) as [[h w] n]. simpl.
  intros Hi. rewrite list_lookup_fmap, lookup_seq_lt; done.
Qed.

(** C3. For every instance mask of the stack with at least one true
    pixel, the extractor's box is (x0, y0, x1, y1) with x0 the least and
    x1 - 1 the greatest column index holding a true pixel, y0 the least
    and y1 - 1 the greatest such row index; its extents x1 - x0 and
    y1 - y0 are the pixel width and height of that range, and their
    product, the box area, is strictly positive. *)
Theorem extracted_box_is_tight (s : ndarray3 bool) (i r c : nat) :
  i < (nd_shape s).2 →
  r < (nd_shape s).1.1 → c < (nd_shape s).1.2 → px s r c i = true →
  ∃ cmin cmax rmin rmax : nat,
    extract_bboxes_from_mask s !! i
      = Some (mkBox (Z.of_nat cmin) (Z.of_nat rmin)
                    (Z.of_nat cmax + 1) (Z.of_nat rmax + 1)) ∧
    (col_true s i cmin ∧ ∀ c', col_true s i c' → cmin ≤ c') ∧
    (col_true s i cmax ∧ ∀ c', col_true s i c' → c' ≤ cmax) ∧
    (row_true s i rmin ∧ ∀ r', row_true s i r' → rmin ≤ r') ∧
    (row_true s i rmax ∧ ∀ r', row_true s i r' → r' ≤ rmax) ∧
    (0 < (Z.of_nat cmax + 1 - Z.of_nat cmin)
         * (Z.of_nat rmax + 1 - Z.of_nat rmin))%Z.
Proof.
  intros Hi Hr Hc Hp.
  assert (Hcol : In c (true_cols s i)).
  { apply In_true_cols. split; [done|]. by exists r. }
  assert (Hrow : In r (true_rows s i)).
  { apply In_true_rows. split; [done|]. by exists c. }
  rewrite (extract_bboxes_lookup s i Hi). unfold bbox_of_channel.
  destruct (true_cols s i) as [|c0 cs] eqn:Ecols; [destruct Hcol|].
  destruct (true_rows s i) as [|r0 rs] eqn:Erows; [destruct Hrow|].
  destruct (foldr_min_spec c0 cs) as [Hcmin_in Hcmin_le].
  destruct (foldr_max_spec c0 cs) as [Hcmax_in Hcmax_le].
  destruct (foldr_min_spec r0 rs) as [Hrmin_in Hrmin_le].
  destruct (foldr_max_spec r0 rs) as [Hrmax_in Hrmax_le].
  exists (foldr Nat.min c0 cs), (foldr Nat.max c0 cs),
         (foldr Nat.min r0 rs), (foldr Nat.max r0 rs).
  split; [done|].
  rewrite <- Ecols in Hcmin_in, Hcmin_le, Hcmax_in, Hcmax_le.
  rewrite <- Erows in Hrmin_in, Hrmin_le, Hrmax_in, Hrmax_le.
  split; [split|split; [split|split; [split|split; [split|]]]].
  - by apply In_true_cols.
  - intros c' Hc'. by apply Hcmin_le, In_true_cols.
  - by apply In_true_cols.
  - intros c' Hc'. by apply Hcmax_le, In_true_cols.
  - by apply In_true_rows.
  - intros r' Hr'. by apply Hrmin_le, In_true_rows.
  - by apply In_true_rows.
  - intros r' Hr'. by apply Hrmax_le, In_true_rows.
  - specialize (Hcmax_le _ Hcmin_in). specialize (Hrmax_le _ Hrmin_in). nia.
Qed.

Lemma extracted_box_is_tight_witness :
  px sample_stack 0 1 0 = true ∧
  ∃ cmin cmax rmin rmax : nat,
    extract_bboxes_from_mask sample_stack !! 0
      = Some (mkBox (Z.of_nat cmin) (Z.of_nat rmin)
                    (Z.of_nat cmax + 1) (Z.of_nat rmax + 1)) ∧
    (col_true sample_stack 0 cmin ∧ ∀ c', col_true sample_stack 0 c' → cmin ≤ c') ∧
    (col_true sample_stack 0 cmax ∧ ∀ c', col_true sample_stack 0 c' → c' ≤ cmax) ∧
    (row_true sample_stack 0 rmin ∧ ∀ r', row_true sample_stack 0 r' → rmin ≤ r') ∧
    (row_true sample_stack 0 rmax ∧ ∀ r', row_true sample_stack 0 r' → r' ≤ rmax) ∧
    (0 < (Z.of_nat cmax + 1 - Z.of_nat cmin)
         * (Z.of_nat rmax + 1 - Z.of_nat rmin))%Z.
Proof.
  split; [reflexivity|].
  apply (extracted_box_is_tight sample_stack 0 0 1); simpl; [lia | lia | lia | reflexivity].
Defined.

(** The spec's example: value 1 on rows 2-4 and columns 3-5 of a 10 x 10
    label image gives one mask, the box (3, 2, 6, 5) and area 9. *)
Example spec_example_10x10 :
  ∃ st, np_dstack (extract_masks_from_cluster label_10x10) = ([], inr st) ∧
        extract_bboxes_from_mask st = [mkBox 3 2 6 5].
Proof. eexists. split; vm_compute; reflexivity. Qed.

(** ** The label-image decomposer *)

Lemma In_nonzero_pixels (img : list (list Z)) v :
  In v (List.filter (fun v => negb (v =? 0)%Z) (concat img)) ↔
  v ≠ 0%Z ∧ ∃ row, In row img ∧ In v row.
Proof.
  rewrite List.filter_In, List.in_concat. split.
  - intros [(row & Hrow & Hv) Hnz].
    split; [|by exists row]. intros ->. discriminate.
  - intros [Hnz (row & Hrow & Hv)]. split; [by exists row|].
    by destruct (Z.eqb_spec v 0).
Qed.

Lemma elem_of_nonzero_values (img : list (list Z)) v :
  v ∈ nonzero_values img ↔ v ≠ 0%Z ∧ ∃ row, row ∈ img ∧ v ∈ row.
Proof.
  unfold nonzero_values. rewrite elem_of_list_to_set, list_elem_of_In.
  rewrite In_nonzero_pixels. setoid_rewrite list_elem_of_In. done.
Qed.

Lemma cluster_values_spec (img : list (list Z)) :
  StronglySorted Z.le (cluster_values img) ∧
  NoDup (cluster_values img) ∧
  ∀ v, v ∈ cluster_values img ↔ v ∈ nonzero_values img.
Proof.
  unfold cluster_values. split; [|split].
  - apply (StronglySorted_merge_sort Z.le).
  - rewrite merge_sort_Permutation. apply NoDup_remove_dups.
  - intros v. rewrite merge_sort_Permutation, elem_of_remove_dups.
    unfold nonzero_values. by rewrite elem_of_list_to_set.
Qed.

Lemma StronglySorted_le_lt (l : list Z) :
  StronglySorted Z.le l → NoDup l → StronglySorted Z.lt l.
Proof.
  induction 1 as [|x l Hs IH Hx]; intros Hnd; constructor.
  - apply IH. by apply NoDup_cons in Hnd as [_ ?].
  - apply NoDup_cons in Hnd as [Hnin _].
    rewrite List.Forall_forall in Hx. apply List.Forall_forall.
    intros y Hy. specialize (Hx y Hy).
    assert (x ≠ y) by (intros ->; by apply Hnin, list_elem_of_In). lia.
Qed.

Lemma cluster_mask_shape (img : list (list Z)) v :
  same_shape (cluster_mask img v) img.
Proof.
  unfold same_shape, cluster_mask. apply Forall2_fmap_l.
  apply Forall_Forall2_diag, List.Forall_forall. intros row _.
  apply length_map.
Qed.

Lemma cluster_mask_px (img : list (list Z)) v r c :
  mask_px (cluster_mask img v) r c = true →
  ∃ row, img !! r = Some row ∧ row !! c = Some v.
Proof.
  unfold mask_px, at2, cluster_mask. rewrite list_lookup_fmap.
  destruct (img !! r) as [row|]; [|discriminate]. simpl.
  rewrite list_lookup_fmap. destruct (row !! c) as [p|] eqn:Ec; [|discriminate].
  simpl. intros Hp%Z.eqb_eq. exists row. split; [done|]. by rewrite Ec, Hp.
Qed.

Example decomposer_2x3 :
  extract_masks_from_cluster label_2x3
  = [ [[false; false; true]; [true; false; false]];
      [[true; false; false]; [false; false; true]] ].
Proof. vm_compute. reflexivity. Qed.

(** ** The array handed to the box extractor *)

Lemma has_shape2_spec {A} h w (m : list (list A)) :
  has_shape2 h w m = true ↔ shaped h w m.
Proof.
  unfold has_shape2, shaped. rewrite andb_true_iff, Nat.eqb_eq, List.forallb_forall.
  rewrite List.Forall_forall. setoid_rewrite Nat.eqb_eq. done.
Qed.

Section Dstack.
Context {A : Type}.
Implicit Types (m : list (list A)) (ms : list (list (list A))).

Lemma dstack_data_shape h w m ms :
  shaped h w m → Forall (shaped h w) ms →
  length (dstack_data m ms) = h ∧
  Forall (fun row =>
    length row = w ∧
    Forall (fun cell => length cell = S (length ms)) row) (dstack_data m ms).
Proof.
  intros Hm Hms. revert m Hm.
  induction Hms as [|m' ms' Hm' Hms' IH]; intros m [Hlen Hrows]; simpl.
  - rewrite length_map. split; [done|].
    apply Forall_fmap. eapply Forall_impl; [exact Hrows|].
    intros row Hrow. simpl. rewrite length_map. split; [done|].
    apply Forall_fmap, List.Forall_forall. done.
  - destruct (IH m' Hm') as [HlenD HrowsD].
    rewrite length_zip_with. split; [lia|].
    apply Forall_lookup. intros r row Hr.
    apply lookup_zip_with_Some in Hr as (rm & rd & -> & Hrm & Hrd).
    rewrite Forall_lookup in Hrows. rewrite Forall_lookup in HrowsD.
    specialize (Hrows _ _ Hrm). destruct (HrowsD _ _ Hrd) as [Hw Hcells].
    rewrite length_zip_with. split; [lia|].
    apply Forall_lookup. intros c cell Hc.
    apply lookup_zip_with_Some in Hc as (a & b & -> & Ha & Hb).
    rewrite Forall_lookup in Hcells. simpl. f_equal. eauto.
Qed.

Lemma dstack_data_at h w m ms i mi r c :
  shaped h w m → Forall (shaped h w) ms →
  (m :: ms) !! i = Some mi →
  at3 (dstack_data m ms) r c i = at2 mi r c.
Proof.
  intros Hm Hms. revert m Hm i.
  induction Hms as [|m' ms' Hm' Hms' IH]; intros m Hm i Hi; simpl.
  - destruct i as [|i]; [|simpl in Hi; by rewrite lookup_nil in Hi].
    injection Hi as <-. unfold at3, at2. rewrite list_lookup_fmap.
    destruct (m !! r) as [row|]; [|done]. simpl.
    rewrite list_lookup_fmap. by destruct (row !! c).
  - destruct (dstack_data_shape h w m' ms' Hm' Hms') as [HlenD HrowsD].
    destruct Hm as [Hlen Hrows].
    assert (Hz : at3 (zip_with (zip_with cons) m (dstack_data m' ms')) r c 0
                 = at2 m r c ∧
                 ∀ k, at3 (zip_with (zip_with cons) m (dstack_data m' ms')) r c (S k)
                      = at3 (dstack_data m' ms') r c k).
    { unfold at3, at2. rewrite lookup_zip_with.
      destruct (m !! r) as [rm|] eqn:Erm; simpl.
      - destruct (dstack_data m' ms' !! r) as [rd|] eqn:Erd; simpl.
        + rewrite lookup_zip_with.
          rewrite Forall_lookup in Hrows. rewrite Forall_lookup in HrowsD.
          specialize (Hrows _ _ Erm). destruct (HrowsD _ _ Erd) as [Hw _].
          destruct (rm !! c) as [a|] eqn:Ea; simpl.
          * destruct (rd !! c) as [b|] eqn:Eb; simpl; [done|].
            apply lookup_lt_Some in Ea. apply lookup_ge_None in Eb. lia.
          * split; [done|]. intros k.
            apply lookup_ge_None in Ea.
            by rewrite (lookup_ge_None_2 rd c) by lia.
        + apply lookup_lt_Some in Erm. apply lookup_ge_None in Erd. lia.
      - split; [done|]. intros k.
        apply lookup_ge_None in Erm.
        by rewrite (lookup_ge_None_2 (dstack_data m' ms') r) by lia. }
    destruct Hz as [Hz0 HzS].
    destruct i as [|i].
    + injection Hi as <-. exact Hz0.
    + rewrite HzS. by apply IH.
Qed.
End Dstack.

(** What [np.dstack] returns on a sequence of boolean masks. *)
Lemma np_dstack_stacked (ms : list (list (list bool))) out st :
  np_dstack ms = (out, inr st) → stacked_last_axis ms st.
Proof.
  intros H. apply np_dstack_inr in H as (_ & m & ms' & h & w & -> & _ & Hall & ->).
  assert (Hshaped : Forall (shaped h w) (m :: ms')).
  { apply List.Forall_forall. intros m0 Hin. apply has_shape2_spec.
    rewrite List.forallb_forall in Hall. by apply Hall. }
  pose proof Hshaped as Hshaped'.
  apply Forall_cons in Hshaped' as [Hm Hms'].
  exists h, w. split; [done|]. split; [simpl; lia|]. split; [done|]. split.
  - unfold wf_shape3. simpl. by apply dstack_data_shape.
  - intros i mi r c Hi. simpl. by eapply dstack_data_at.
Qed.

(** C5, as stated, fails: for the 2 x 3 label image with two clusters the
    array handed to the extractor has shape (2, 3, 2), rows first and
    instances last, not (instances, height, width) = (2, 2, 3). *)
Lemma extractor_argument_not_instance_first :
  ∃ img mcf st,
    EdfDataset.bbox_extractor_argument sample_world edf_2x3 0
      = ([], inr (img, mcf, st)) ∧
    length mcf = 2 ∧ Forall (fun m => np_shape2 m = (2, 3)) mcf ∧
    nd_shape st = (2, 3, 2) ∧
    nd_shape st ≠ (length mcf, 2, 3).
Proof.
  eexists _, _, _. split; [vm_compute; reflexivity|].
  split; [reflexivity|].
  split; [repeat constructor|].
  split; [reflexivity|]. discriminate.
Qed.

(** C5, amended. In every sample access of either adapter, the argument
    passed to the box extractor is a 3-D stack of the boolean instance
    masks whose last axis indexes the instances: its shape is
    (height, width, instance-count), all masks share that height and
    width, and entry [r][c][i] is entry [r][c] of the i-th mask. *)
Theorem extractor_argument_layout :
  (∀ w self idx out img mcf st,
     EdfDataset.bbox_extractor_argument w self idx = (out, inr (img, mcf, st)) →
     stacked_last_axis mcf st) ∧
  (∀ w self idx out id img anno st,
     CrowdDataset.bbox_extractor_argument w self idx
       = (out, inr (id, img, anno, st)) →
     stacked_last_axis (map annToMask anno) st).
Proof.
  split.
  - intros w self idx out img mcf st H.
    apply Edf_argument_inv in H as (_ & Hst & _).
    by eapply np_dstack_stacked.
  - intros w self idx out id img anno st H.
    apply Crowd_argument_inv in H as (_ & _ & _ & _ & Hst).
    by eapply np_dstack_stacked.
Qed.

Lemma extractor_argument_layout_witness :
  (∃ img mcf st,
     EdfDataset.bbox_extractor_argument sample_world edf_2x3 0
       = ([], inr (img, mcf, st)) ∧ stacked_last_axis mcf st) ∧
  (∃ id img anno st,
     CrowdDataset.bbox_extractor_argument sample_world sample_crowd 1
       = ([], inr (id, img, anno, st)) ∧
     stacked_last_axis (map annToMask anno) st).
Proof.
  split.
  - eexists _, _, _. split; [vm_compute; reflexivity|].
    refine (proj1 extractor_argument_layout sample_world edf_2x3 0%Z [] _ _ _ _).
    vm_compute. reflexivity.
  - eexists _, _, _, _. split; [vm_compute; reflexivity|].
    refine (proj2 extractor_argument_layout sample_world sample_crowd 1%Z
              [] _ _ _ _ _).
    vm_compute. reflexivity.
Defined.

(** ** CrowdDataset: the arrays the second filter leaves alone *)

(** The area and crowd-flag arrays list, verbatim and in order, the
    values of all non-crowd records of the image; the boxes, labels and
    masks are those of the records whose box passed the second filter. *)
Lemma Crowd_area_iscrowd_verbatim w self idx out img t :
  CrowdDataset.transforms self = None →
  CrowdDataset.__getitem__ w self idx = (out, inr (img, t)) →
  ∃ id anno,
    image_id t = [id] ∧
    anno = List.filter (fun obj => (ann_iscrowd obj =? 0)%Z)
             (loadAnns_of (CrowdDataset.coco self) id) ∧
    anno ≠ [] ∧
    area t = map ann_area anno ∧
    iscrowd t = map ann_iscrowd anno ∧
    length (labels t) = length (boxes t) ∧
    length (masks t) = length (boxes t) ∧
    length (boxes t) ≤ length anno.
Proof.
  intros Htr H.
  apply Crowd_getitem_inv in H as (id & anno & st & Harg & -> & Hlen & ->); [|done].
  apply Crowd_argument_inv in Harg as (_ & _ & _ & Hanno & Hst).
  exists id, anno. cbn [image_id area iscrowd labels masks boxes].
  split; [done|]. split; [done|]. split.
  { intros ->. discriminate. }
  split; [done|]. split; [done|]. split; [|split].
  - apply select_length_eq. by rewrite length_replicate.
  - apply select_length_eq. unfold as_uint8. by rewrite !length_map.
  - rewrite <- Hlen. apply sublist_length, select_sublist.
Qed.

(** C1 at the failing input. Image 7 of the sample source has two
    non-crowd records, the first with a mask of no pixel: its box is the
    zero-area sentinel and the second filter drops it from boxes, labels
    and masks, which have length 1, while area and iscrowd keep both
    records and have length 2. *)
Theorem Crowd_cardinality_breaks_on_degenerate_box :
  ∃ img t,
    CrowdDataset.__getitem__ sample_world sample_crowd 1 = ([], inr (img, t)) ∧
    length (boxes t) = 1 ∧ length (labels t) = 1 ∧ length (masks t) = 1 ∧
    length (area t) = 2 ∧ length (iscrowd t) = 2.
Proof. eexists _, _. split; [vm_compute; reflexivity|]. repeat split. Qed.

(** C6 at the failing input. The only instance that survives for image 7
    is the one of [plain_ann] (the emitted mask is its mask), yet the
    first entry of the area array is the area of the dropped record
    [empty_ann], which differs from the area in [plain_ann]. *)
Theorem Crowd_area_misaligned_after_filter :
  ∃ img t,
    CrowdDataset.__getitem__ sample_world sample_crowd 1 = ([], inr (img, t)) ∧
    boxes t = [mkBox 1 0 2 2] ∧
    masks t = as_uint8 [annToMask plain_ann] ∧
    area t !! 0 = Some (ann_area empty_ann) ∧
    ann_area empty_ann ≠ ann_area plain_ann.
Proof.
  eexists _, _. split; [vm_compute; reflexivity|].
  split; [reflexivity|]. split; [reflexivity|]. split; [reflexivity|].
  discriminate.
Qed.

(** C8 at the failing input. Image 3 of the sample source has no
    annotation: the sequence handed to [np.dstack] is empty, and the
    access raises [ValueError] instead of returning a sample. *)
Theorem Crowd_no_annotation_raises :
  loadAnns_of (CrowdDataset.coco sample_crowd) 3 = [] ∧
  CrowdDataset.__getitem__ sample_world sample_crowd 0 = ([], inl ValueError).
Proof. split; vm_compute; reflexivity. Qed.

(** More generally, no access whose image has zero valid annotations
    returns: whenever the image and its file are found, the access raises
    [ValueError]. *)
Lemma Crowd_zero_valid_annotations_raise w self idx id obj image :
  py_getitem (CrowdDataset.img_ids self) idx = ([], inr id) →
  imgs (CrowdDataset.coco self) !! id = Some obj →
  image_files w !! os_path_join (CrowdDataset.imgs_dir self) (file_name obj)
    = Some image →
  List.filter (fun obj => (ann_iscrowd obj =? 0)%Z)
    (loadAnns_of (CrowdDataset.coco self) id) = [] →
  CrowdDataset.__getitem__ w self idx = ([], inl ValueError).
Proof.
  intros Hid Hobj Himg Hnone.
  unfold CrowdDataset.__getitem__, CrowdDataset.bbox_extractor_argument.
  rewrite Hid. unfold loadImgs0, Image_open. cbn [bind ret].
  rewrite Hobj. cbn [bind ret]. rewrite Himg. cbn [bind ret].
  rewrite Hnone. reflexivity.
Qed.

(** * Further properties of the adapters *)

(** ** Indices *)

Lemma py_getitem_out_of_range {A} (l : list A) (i : Z) :
  (i < - Z.of_nat (length l) ∨ Z.of_nat (length l) ≤ i)%Z →
  py_getitem l i = ([], inl IndexError).
Proof.
  intros Hi. unfold py_getitem. cbv zeta.
  destruct (Z.ltb_spec i 0).
  - destruct (Z.leb_spec 0 (i + Z.of_nat (length l))); [lia|]. done.
  - destruct (Z.leb_spec 0 i); [|lia].
    destruct (Z.ltb_spec i (Z.of_nat (length l))); [lia|]. done.
Qed.

Lemma py_getitem_in_range {A} (l : list A) (i : Z) :
  (0 ≤ i < Z.of_nat (length l))%Z →
  ∃ x, l !! Z.to_nat i = Some x ∧ py_getitem l i = ([], inr x).
Proof.
  intros Hi. unfold py_getitem. cbv zeta.
  destruct (Z.ltb_spec i 0); [lia|].
  destruct (Z.leb_spec 0 i); [|lia].
  destruct (Z.ltb_spec i (Z.of_nat (length l))); [|lia]. simpl.
  destruct (lookup_lt_is_Some_2 l (Z.to_nat i)) as [x Hx]; [lia|].
  exists x. by rewrite Hx.
Qed.

Lemma py_getitem_negative {A} (l : list A) (i : Z) :
  (0 ≤ i < Z.of_nat (length l))%Z →
  py_getitem l (i - Z.of_nat (length l)) = py_getitem l i.
Proof.
  intros Hi. unfold py_getitem. cbv zeta.
  destruct (Z.ltb_spec (i - Z.of_nat (length l)) 0); [|lia].
  destruct (Z.ltb_spec i 0); [lia|].
  by replace (i - Z.of_nat (length l) + Z.of_nat (length l))%Z with i by lia.
Qed.

(** X1. An index outside [-len, len) makes the local adapter raise
    IndexError at once, before any file is looked at. *)
Theorem Edf_getitem_index_out_of_range w self idx :
  (idx < - Z.of_nat (EdfDataset.__len__ self)
   ∨ Z.of_nat (EdfDataset.__len__ self) ≤ idx)%Z →
  EdfDataset.__getitem__ w self idx = ([], inl IndexError).
Proof.
  intros Hi. unfold EdfDataset.__getitem__, EdfDataset.bbox_extractor_argument.
  by rewrite (py_getitem_out_of_range _ _ Hi).
Qed.

Lemma Edf_getitem_index_out_of_range_witness :
  EdfDataset.__len__ sample_edf = 1 ∧
  EdfDataset.__getitem__ sample_world sample_edf 1 = ([], inl IndexError) ∧
  EdfDataset.__getitem__ sample_world sample_edf (-2) = ([], inl IndexError).
Proof.
  split; [reflexivity|]. split.
  - apply (Edf_getitem_index_out_of_range sample_world sample_edf 1).
    right. vm_compute. discriminate.
  - apply (Edf_getitem_index_out_of_range sample_world sample_edf (-2)).
    left. vm_compute. reflexivity.
Defined.

(** X2. The same for the external-annotation adapter. *)
Theorem Crowd_getitem_index_out_of_range w self idx :
  (idx < - Z.of_nat (CrowdDataset.__len__ self)
   ∨ Z.of_nat (CrowdDataset.__len__ self) ≤ idx)%Z →
  CrowdDataset.__getitem__ w self idx = ([], inl IndexError).
Proof.
  intros Hi. unfold CrowdDataset.__getitem__, CrowdDataset.bbox_extractor_argument.
  by rewrite (py_getitem_out_of_range _ _ Hi).
Qed.

Lemma Crowd_getitem_index_out_of_range_witness :
  CrowdDataset.__len__ sample_crowd = 2 ∧
  CrowdDataset.__getitem__ sample_world sample_crowd 2 = ([], inl IndexError) ∧
  CrowdDataset.__getitem__ sample_world sample_crowd (-3) = ([], inl IndexError).
Proof.
  split; [reflexivity|]. split.
  - apply (Crowd_getitem_index_out_of_range sample_world sample_crowd 2).
    right. vm_compute. discriminate.
  - apply (Crowd_getitem_index_out_of_range sample_world sample_crowd (-3)).
    left. vm_compute. reflexivity.
Defined.

(** X3. In the external-annotation adapter a negative index is the
    matching index from the end in every respect: index i - len gives
    exactly the result of index i, image_id included, so the two indices
    yield the same image_id. *)
Theorem Crowd_getitem_negative_index w self i :
  (0 ≤ i < Z.of_nat (CrowdDataset.__len__ self))%Z →
  CrowdDataset.__getitem__ w self (i - Z.of_nat (CrowdDataset.__len__ self))
  = CrowdDataset.__getitem__ w self i.
Proof.
  intros Hi. unfold CrowdDataset.__getitem__, CrowdDataset.bbox_extractor_argument.
  unfold CrowdDataset.__len__ in *. by rewrite (py_getitem_negative _ _ Hi).
Qed.

Lemma Crowd_getitem_negative_index_witness :
  CrowdDataset.__getitem__ sample_world sample_crowd (-1)
  = CrowdDataset.__getitem__ sample_world sample_crowd 1.
Proof.
  apply (Crowd_getitem_negative_index sample_world sample_crowd 1).
  vm_compute. split; [discriminate|reflexivity].
Defined.

(** X4. In the local adapter, when the two path lists are equally long, a
    negative index i - len reads the same image and label as index i and
    returns the same image, boxes, labels, masks, area and crowd flags,
    but its image_id is the negative index itself, not i. *)
Theorem Edf_getitem_negative_index w self i out img t :
  length (EdfDataset.img_paths self) = length (EdfDataset.mask_paths self) →
  EdfDataset.transforms self = None →
  (0 ≤ i < Z.of_nat (EdfDataset.__len__ self))%Z →
  EdfDataset.__getitem__ w self i = (out, inr (img, t)) →
  image_id t = [i] ∧
  EdfDataset.__getitem__ w self (i - Z.of_nat (EdfDataset.__len__ self))
  = (out, inr (img, mkTarget (boxes t) (labels t) (masks t)
                      [(i - Z.of_nat (EdfDataset.__len__ self))%Z]
                      (area t) (iscrowd t))).
Proof.
  intros Hlen Htr Hi H.
  assert (Harg : EdfDataset.bbox_extractor_argument w self
                   (i - Z.of_nat (EdfDataset.__len__ self))
                 = EdfDataset.bbox_extractor_argument w self i).
  { unfold EdfDataset.bbox_extractor_argument, EdfDataset.__len__ in *.
    rewrite (py_getitem_negative _ _ Hi).
    rewrite Hlen in Hi |- *. by rewrite (py_getitem_negative _ _ Hi). }
  unfold EdfDataset.__getitem__ in *. rewrite Harg.
  apply bind_inr in H as (o1 & [[img' mcf] st] & o2 & -> & Hrest & ->).
  rewrite Htr in Hrest. injection Hrest as <- <- <-.
  split; [done|]. simpl. by rewrite Htr.
Qed.

Lemma Edf_getitem_negative_index_witness :
  ∃ img t,
    EdfDataset.__getitem__ sample_world sample_edf 0 = ([], inr (img, t)) ∧
    image_id t = [0%Z] ∧
    EdfDataset.__getitem__ sample_world sample_edf (-1)
    = ([], inr (img, mkTarget (boxes t) (labels t) (masks t) [(-1)%Z]
                       (area t) (iscrowd t))).
Proof.
  eexists _, _. split; [vm_compute; reflexivity|].
  refine (Edf_getitem_negative_index sample_world sample_edf 0 [] _ _
            eq_refl eq_refl _ _).
  - vm_compute. split; [discriminate|reflexivity].
  - vm_compute. reflexivity.
Defined.

(** X5. The length of the local dataset counts image paths only: an
    index that is valid for the images but beyond the label list raises
    IndexError once the image has been opened. *)
Theorem Edf_getitem_label_list_too_short w self i ip image :
  (Z.of_nat (length (EdfDataset.mask_paths self)) ≤ i)%Z →
  EdfDataset.img_paths self !! Z.to_nat i = Some ip →
  image_files w !! ip = Some image →
  (i < Z.of_nat (EdfDataset.__len__ self))%Z ∧
  EdfDataset.__getitem__ w self i = ([], inl IndexError).
Proof.
  intros Hm Hip Himg.
  assert (Hlt : (i < Z.of_nat (EdfDataset.__len__ self))%Z).
  { apply lookup_lt_Some in Hip. unfold EdfDataset.__len__. lia. }
  split; [done|].
  unfold EdfDataset.__getitem__, EdfDataset.bbox_extractor_argument.
  destruct (py_getitem_in_range (EdfDataset.img_paths self) i) as (x & Hx & ->).
  { unfold EdfDataset.__len__ in Hlt. lia. }
  rewrite Hip in Hx. injection Hx as <-.
  unfold Image_open. cbn [bind]. rewrite Himg. cbn [bind ret].
  rewrite (py_getitem_out_of_range (EdfDataset.mask_paths self) i) by lia.
  reflexivity.
Qed.

Lemma Edf_getitem_label_list_too_short_witness :
  (1 < Z.of_nat (EdfDataset.__len__ short_labels_edf))%Z ∧
  EdfDataset.__getitem__ sample_world short_labels_edf 1 = ([], inl IndexError).
Proof.
  apply (Edf_getitem_label_list_too_short sample_world short_labels_edf 1
           "e/image/b_00001.png"%string [[[3%Z; 3%Z; 3%Z]]]).
  - vm_compute. discriminate.
  - reflexivity.
  - vm_compute. reflexivity.
Defined.

(** ** Boxes and masks *)

Lemma at2_Some_lt {A} h w (m : list (list A)) r c x :
  shaped h w m → at2 m r c = Some x → r < h ∧ c < w.
Proof.
  intros [Hlen Hrows]. unfold at2.
  destruct (m !! r) as [row|] eqn:Er; [|discriminate]. intros Hc.
  rewrite Forall_lookup in Hrows. specialize (Hrows _ _ Er).
  apply lookup_lt_Some in Er, Hc. lia.
Qed.

Lemma at2_lt_Some {A} h w (m : list (list A)) r c :
  shaped h w m → r < h → c < w → is_Some (at2 m r c).
Proof.
  intros [Hlen Hrows] Hr Hc. unfold at2.
  destruct (lookup_lt_is_Some_2 m r) as [row Er]; [lia|]. rewrite Er.
  rewrite Forall_lookup in Hrows. specialize (Hrows _ _ Er).
  apply lookup_lt_is_Some_2. lia.
Qed.

Lemma mask_nonempty_spec (m : list (list bool)) :
  mask_nonempty m = true ↔ ∃ r c, at2 m r c = Some true.
Proof.
  unfold mask_nonempty. rewrite List.existsb_exists. split.
  - intros (row & Hrow & Hex). apply List.existsb_exists in Hex as (b & Hb & ->).
    apply list_elem_of_In, list_elem_of_lookup in Hrow as [r Hr].
    apply list_elem_of_In, list_elem_of_lookup in Hb as [c Hc].
    exists r, c. unfold at2. by rewrite Hr.
  - intros (r & c & H). unfold at2 in H.
    destruct (m !! r) as [row|] eqn:Er; [|discriminate].
    exists row. split.
    + apply list_elem_of_In. by eapply list_elem_of_lookup_2.
    + apply List.existsb_exists. exists true. split; [|done].
      apply list_elem_of_In. by eapply list_elem_of_lookup_2.
Qed.

(** The box of a channel lies inside the array, and encloses every true
    pixel of the channel. *)
Lemma bbox_of_channel_bounds s i :
  let b := bbox_of_channel s i in
  (0 ≤ x0 b ≤ x1 b)%Z ∧ (x1 b ≤ Z.of_nat (nd_shape s).1.2)%Z ∧
  (0 ≤ y0 b ≤ y1 b)%Z ∧ (y1 b ≤ Z.of_nat (nd_shape s).1.1)%Z.
Proof.
  unfold bbox_of_channel.
  destruct (true_cols s i) as [|c0 cs] eqn:Ecols; [simpl; lia|].
  destruct (true_rows s i) as [|r0 rs] eqn:Erows; [simpl; lia|].
  destruct (foldr_min_spec c0 cs) as [Hcmin_in Hcmin_le].
  destruct (foldr_max_spec c0 cs) as [Hcmax_in Hcmax_le].
  destruct (foldr_min_spec r0 rs) as [Hrmin_in Hrmin_le].
  destruct (foldr_max_spec r0 rs) as [Hrmax_in Hrmax_le].
  specialize (Hcmax_le _ Hcmin_in). specialize (Hrmax_le _ Hrmin_in).
  rewrite <- Ecols in Hcmax_in. rewrite <- Erows in Hrmax_in.
  apply In_true_cols in Hcmax_in as [Hc _].
  apply In_true_rows in Hrmax_in as [Hr _].
  simpl. lia.
Qed.

(** The second filter's test on the box of a channel succeeds exactly
    when the channel has a true pixel. *)
Lemma keep_flag_bbox_of_channel s i :
  CrowdDataset.keep_flag (bbox_of_channel s i) = true ↔
  ∃ r c, r < (nd_shape s).1.1 ∧ c < (nd_shape s).1.2 ∧ px s r c i = true.
Proof.
  unfold bbox_of_channel, CrowdDataset.keep_flag. split.
  - destruct (true_cols s i) as [|c0 cs] eqn:Ecols; [simpl; intros; discriminate|].
    intros _.
    assert (Hin : In c0 (true_cols s i)) by (rewrite Ecols; by left).
    apply In_true_cols in Hin as [Hc (r & Hr & Hp)]. by exists r, c0.
  - intros (r & c & Hr & Hc & Hp).
    assert (Hcol : In c (true_cols s i)).
    { apply In_true_cols. split; [done|]. by exists r. }
    assert (Hrow : In r (true_rows s i)).
    { apply In_true_rows. split; [done|]. by exists c. }
    destruct (true_cols s i) as [|c0 cs] eqn:Ecols; [destruct Hcol|].
    destruct (true_rows s i) as [|r0 rs] eqn:Erows; [destruct Hrow|].
    destruct (foldr_min_spec c0 cs) as [Hcmin_in _].
    destruct (foldr_max_spec c0 cs) as [_ Hcmax_le].
    destruct (foldr_min_spec r0 rs) as [Hrmin_in _].
    destruct (foldr_max_spec r0 rs) as [_ Hrmax_le].
    specialize (Hcmax_le _ Hcmin_in). specialize (Hrmax_le _ Hrmin_in).
    simpl. apply andb_true_iff. split; apply Z.gtb_lt; lia.
Qed.

(** In a stack built by [np.dstack], that is: exactly when the mask of
    the channel is not empty. *)
Lemma keep_flag_stacked ms st i m :
  stacked_last_axis ms st → ms !! i = Some m →
  CrowdDataset.keep_flag (bbox_of_channel st i) = mask_nonempty m.
Proof.
  intros (h & w & Hshape & _ & Hshaped & _ & Hat) Hi.
  assert (Hm : shaped h w m).
  { rewrite Forall_lookup in Hshaped. by eapply Hshaped. }
  apply eq_true_iff_eq. rewrite keep_flag_bbox_of_channel, mask_nonempty_spec.
  rewrite Hshape. simpl. split.
  - intros (r & c & Hr & Hc & Hp). exists r, c.
    unfold px in Hp. rewrite (Hat _ _ _ _ Hi) in Hp.
    destruct (at2_lt_Some h w m r c Hm Hr Hc) as [b Hb].
    rewrite Hb in Hp |- *. simpl in Hp. by rewrite Hp.
  - intros (r & c & Hrc). destruct (at2_Some_lt h w m r c _ Hm Hrc) as [Hr Hc].
    exists r, c. split; [done|]. split; [done|].
    unfold px. by rewrite (Hat _ _ _ _ Hi), Hrc.
Qed.



Lemma kept_box_in_bounds s i :
  CrowdDataset.keep_flag (bbox_of_channel s i) = true →
  in_bounds (nd_shape s).1.1 (nd_shape s).1.2 (bbox_of_channel s i).
Proof.
  intros Hk. pose proof (bbox_of_channel_bounds s i) as Hb.
  unfold CrowdDataset.keep_flag in Hk. apply andb_true_iff in Hk as [Hy Hx].
  unfold in_bounds. cbv zeta in Hb. lia.
Qed.






(** ** The local adapter and its label image *)

Lemma cluster_values_all_background (label : list (list Z)) :
  Forall (Forall (fun v => v = 0%Z)) label → cluster_values label = [].
Proof.
  intros Hz. unfold cluster_values.
  assert (Hf : List.filter (fun v => negb (v =? 0)%Z) (concat label) = []).
  { induction Hz as [|row l Hrow _ IH]; [done|]. simpl.
    rewrite List.filter_app, IH, app_nil_r.
    clear -Hrow. induction Hrow as [|v row -> _ IH]; [done|]. simpl. exact IH. }
  by rewrite Hf.
Qed.

(** X9. A label image with background only has no instance: the local
    adapter hands an empty sequence to [np.dstack] and raises ValueError
    instead of returning a sample with N = 0. *)
Theorem Edf_all_background_raises w self idx ip image mp label :
  py_getitem (EdfDataset.img_paths self) idx = ([], inr ip) →
  image_files w !! ip = Some image →
  py_getitem (EdfDataset.mask_paths self) idx = ([], inr mp) →
  label_files w !! mp = Some label →
  Forall (Forall (fun v => v = 0%Z)) label →
  EdfDataset.__getitem__ w self idx = ([], inl ValueError).
Proof.
  intros Hip Himg Hmp Hlabel Hz.
  unfold EdfDataset.__getitem__, EdfDataset.bbox_extractor_argument.
  rewrite Hip. unfold Image_open, load_image_as_np_array. cbn [bind].
  rewrite Himg. cbn [bind ret]. rewrite Hmp. cbn [bind]. rewrite Hlabel.
  cbn [bind ret]. unfold extract_masks_from_cluster.
  by rewrite (cluster_values_all_background _ Hz).
Qed.

Lemma Edf_all_background_raises_witness :
  EdfDataset.__getitem__ blank_world blank_edf 0 = ([], inl ValueError).
Proof.
  apply (Edf_all_background_raises blank_world blank_edf 0
           "b/image/c_00001.png"%string [[[0%Z; 0%Z; 0%Z]]]
           "b/label/c_00001.png"%string [[0; 0; 0]; [0; 0; 0]]%Z);
    try (vm_compute; reflexivity).
  repeat constructor.
Defined.

Lemma cluster_mask_at2 (label : list (list Z)) v r c :
  at2 (cluster_mask label v) r c = (fun p => (p =? v)%Z) <$> at2 label r c.
Proof.
  unfold at2, cluster_mask. rewrite list_lookup_fmap.
  destruct (label !! r) as [row|]; [|done]. simpl. by rewrite list_lookup_fmap.
Qed.

Lemma cluster_mask_shaped (label : list (list Z)) v h w :
  shaped h w (cluster_mask label v) ↔ shaped h w label.
Proof.
  unfold shaped, cluster_mask. rewrite length_map, Forall_fmap.
  split; intros [Hl Hr]; (split; [done|]);
    (eapply Forall_impl; [exact Hr|]); intros row; simpl;
    by rewrite length_map.
Qed.

Lemma cluster_value_occurs (label : list (list Z)) v :
  v ∈ cluster_values label → v ≠ 0%Z ∧ ∃ r c, at2 label r c = Some v.
Proof.
  intros Hv. apply cluster_values_spec, elem_of_nonzero_values in Hv
    as [Hnz (row & Hrow & Hin)].
  split; [done|].
  apply list_elem_of_lookup in Hrow as [r Hr].
  apply list_elem_of_lookup in Hin as [c Hc].
  exists r, c. unfold at2. by rewrite Hr.
Qed.

Lemma at2_fmap {A B} (f : A → B) (m : list (list A)) r c :
  at2 (map (map f) m) r c = f <$> at2 m r c.
Proof.
  unfold at2. rewrite list_lookup_fmap.
  destruct (m !! r) as [row|]; [|done]. simpl. by rewrite list_lookup_fmap.
Qed.

Lemma at2_occurs (label : list (list Z)) r c v :
  at2 label r c = Some v → v ≠ 0%Z → v ∈ cluster_values label.
Proof.
  intros Hrc Hnz. apply cluster_values_spec, elem_of_nonzero_values.
  split; [done|]. unfold at2 in Hrc.
  destruct (label !! r) as [row|] eqn:Er; [|discriminate].
  exists row. split; by eapply list_elem_of_lookup_2.
Qed.

(** ** What the consistency check compares *)

Lemma string_length_app (a b : string) :
  String.length (a +:+ b) = String.length a + String.length b.
Proof.
  induction a as [|c a IH]; [done|].
  change (String c a +:+ b) with (String c (a +:+ b)). simpl. by rewrite IH.
Qed.

Lemma substring_skip (pre s : string) n m :
  String.substring (String.length pre + n) m (pre +:+ s) = String.substring n m s.
Proof.
  induction pre as [|c pre IH]; [done|].
  change (String c pre +:+ s) with (String c (pre +:+ s)). simpl. exact IH.
Qed.

Lemma substring_prefix (a e : string) :
  String.substring 0 (String.length a) (a +:+ e) = a.
Proof.
  induction a as [|c a IH].
  - simpl. change ("" +:+ e) with e. by destruct e.
  - change (String c a +:+ e) with (String c (a +:+ e)). simpl. by rewrite IH.
Qed.

(** [path[-9:-4]] of a path that ends with five characters followed by
    four more is those five characters. *)
Lemma py_slice_stem (pre a e : string) :
  String.length a = 5 → String.length e = 4 →
  py_slice (pre +:+ a +:+ e) (-9) (-4) = a.
Proof.
  intros Ha He. unfold py_slice, py_slice_bound. cbv zeta.
  rewrite !string_length_app, Ha, He.
  change (-9 <? 0)%Z with true. change (-4 <? 0)%Z with true. cbv iota.
  replace (Z.to_nat (Z.max (-9 + Z.of_nat (String.length pre + (5 + 4))) 0))
    with (String.length pre + 0) by lia.
  replace (Z.to_nat (Z.max (-4 + Z.of_nat (String.length pre + (5 + 4))) 0
                     - Z.max (-9 + Z.of_nat (String.length pre + (5 + 4))) 0))
    with (String.length a) by lia.
  rewrite substring_skip. apply substring_prefix.
Qed.

(** X12. The check compares exactly the five characters that precede a
    four-character extension: for paths of the form
    prefix + stem + extension with a 5-character stem and a 4-character
    extension, a pair is flagged if and only if the two stems differ,
    whatever the directories and the extensions are. *)
Theorem mismatch_compares_stems (pre1 a e1 pre2 b e2 : string) :
  String.length a = 5 → String.length b = 5 →
  String.length e1 = 4 → String.length e2 = 4 →
  EdfDataset.mismatch (pre1 +:+ a +:+ e1, pre2 +:+ b +:+ e2)
  = negb (String.eqb a b).
Proof.
  intros Ha Hb He1 He2. unfold EdfDataset.mismatch. simpl.
  by rewrite (py_slice_stem pre1 a e1 Ha He1), (py_slice_stem pre2 b e2 Hb He2).
Qed.

Lemma mismatch_compares_stems_witness :
  EdfDataset.mismatch ("d/image/a_" +:+ "00002" +:+ ".png",
                       "d/label/a_" +:+ "00007" +:+ ".tif") = true ∧
  EdfDataset.mismatch ("d/image/a_" +:+ "00002" +:+ ".png",
                       "elsewhere/" +:+ "00002" +:+ ".tif") = false.
Proof.
  split.
  - apply (mismatch_compares_stems "d/image/a_" "00002" ".png"
             "d/label/a_" "00007" ".tif"); reflexivity.
  - apply (mismatch_compares_stems "d/image/a_" "00002" ".png"
             "elsewhere/" "00002" ".tif"); reflexivity.
Defined.

(** X13. Paths of at most four characters are never flagged: their
    [-9:-4] slices are both empty. *)
Theorem mismatch_short_paths (p1 p2 : string) :
  String.length p1 ≤ 4 → String.length p2 ≤ 4 →
  EdfDataset.mismatch (p1, p2) = false.
Proof.
  intros H1 H2. unfold EdfDataset.mismatch, py_slice, py_slice_bound.
  cbn [fst snd]. change (-9 <? 0)%Z with true. change (-4 <? 0)%Z with true.
  cbv iota zeta.
  replace (Z.to_nat (Z.max (-4 + Z.of_nat (String.length p1)) 0
                     - Z.max (-9 + Z.of_nat (String.length p1)) 0)) with 0 by lia.
  replace (Z.to_nat (Z.max (-4 + Z.of_nat (String.length p2)) 0
                     - Z.max (-9 + Z.of_nat (String.length p2)) 0)) with 0 by lia.
  replace (Z.to_nat (Z.max (-9 + Z.of_nat (String.length p1)) 0)) with 0 by lia.
  replace (Z.to_nat (Z.max (-9 + Z.of_nat (String.length p2)) 0)) with 0 by lia.
  by destruct p1, p2.
Qed.

Lemma mismatch_short_paths_witness :
  EdfDataset.mismatch ("a.py", "b")%string = false.
Proof.
  apply (mismatch_short_paths "a.py" "b"); simpl; lia.
Defined.

Lemma zip_app_l_equal_length {A B} (l1 l1' : list A) (l2 : list B) :
  length l1 = length l2 → zip (l1 ++ l1') l2 = zip l1 l2.
Proof.
  revert l2. induction l1 as [|x l1 IH]; intros [|y l2]; try done.
  - by destruct l1'.
  - intros [= Hlen]. simpl. by rewrite IH.
Qed.

Lemma zip_app_r_equal_length {A B} (l1 : list A) (l2 l2' : list B) :
  length l1 = length l2 → zip l1 (l2 ++ l2') = zip l1 l2.
Proof.
  revert l2. induction l1 as [|x l1 IH]; intros [|y l2]; try done.
  intros [= Hlen]. simpl. by rewrite IH.
Qed.

(** X14. The check pairs the two lists position by position and stops at
    the end of the shorter one: image paths without a label, or label
    paths without an image, at the end of a list are never reported. *)
Theorem check_ignores_unpaired_tail (ips mps extra : list string) tr :
  length ips = length mps →
  EdfDataset.check (EdfDataset.mk (ips ++ extra) mps tr)
    = EdfDataset.check (EdfDataset.mk ips mps tr) ∧
  EdfDataset.check (EdfDataset.mk ips (mps ++ extra) tr)
    = EdfDataset.check (EdfDataset.mk ips mps tr).
Proof.
  intros Hlen. unfold EdfDataset.check. simpl.
  by rewrite zip_app_l_equal_length, zip_app_r_equal_length.
Qed.

Lemma check_ignores_unpaired_tail_witness :
  EdfDataset.check short_labels_edf = ([], inr tt).
Proof.
  destruct (check_ignores_unpaired_tail
              ["d/image/a_00001.png"%string] ["d/label/a_00001.png"%string]
              ["e/image/b_00001.png"%string] None eq_refl) as [H _].
  change (EdfDataset.mk (["d/image/a_00001.png"%string] ++ ["e/image/b_00001.png"%string])
            ["d/label/a_00001.png"%string] None) with short_labels_edf in H.
  rewrite H. vm_compute. reflexivity.
Defined.

(** ** Construction and outcomes of the external-annotation adapter *)

(** X15. A dataset built by the constructor of the external-annotation
    adapter reads annotation-small.json when load_small is set and
    annotation.json otherwise, both under dataset_dir/subset; its images
    directory is dataset_dir/subset/images; its identifiers are those of
    the annotation source, each once, in strictly ascending order; and
    its length is the number of images of the source. *)
Theorem Crowd_init_spec w dir subset tr small out self :
  CrowdDataset.__init__ w dir subset tr small = (out, inr self) →
  annotation_files w !!
    os_path_join (os_path_join dir subset)
      (if small then "annotation-small.json" else "annotation.json")%string
    = Some (CrowdDataset.coco self) ∧
  CrowdDataset.imgs_dir self
    = os_path_join (os_path_join dir subset) "images"%string ∧
  CrowdDataset.transforms self = tr ∧
  StronglySorted Z.lt (CrowdDataset.img_ids self) ∧
  (∀ x, x ∈ CrowdDataset.img_ids self ↔ x ∈ dom (imgs (CrowdDataset.coco self))) ∧
  CrowdDataset.__len__ self = size (imgs (CrowdDataset.coco self)).
Proof.
  unfold CrowdDataset.__init__. intros H.
  apply bind_inr in H as (o1 & c & o2 & Hc & H & _).
  injection H as _ <-. unfold COCO_load in Hc.
  apply lookup_silent in Hc as [_ Hc]. cbn [CrowdDataset.coco
    CrowdDataset.imgs_dir CrowdDataset.transforms CrowdDataset.img_ids].
  destruct (sorted_ids_spec c) as (Hs & Hnd & Hdom).
  split; [by destruct small|]. split; [done|]. split; [done|].
  split; [by apply StronglySorted_le_lt|]. split; [done|].
  unfold CrowdDataset.__len__, sorted, getImgIds. simpl.
  by rewrite merge_sort_Permutation, length_fmap, length_map_to_list.
Qed.

Lemma Crowd_init_spec_witness :
  CrowdDataset.__init__ sample_world "r" "val" None false = ([], inr sample_crowd) ∧
  StronglySorted Z.lt (CrowdDataset.img_ids sample_crowd) ∧
  CrowdDataset.__len__ sample_crowd = size (imgs (CrowdDataset.coco sample_crowd)).
Proof.
  assert (Hinit : CrowdDataset.__init__ sample_world "r" "val" None false
                  = ([], inr sample_crowd)) by (vm_compute; reflexivity).
  split; [exact Hinit|].
  destruct (Crowd_init_spec sample_world "r" "val" None false [] sample_crowd Hinit)
    as (_ & _ & _ & Hs & _ & Hl).
  by split.
Defined.

Lemma np_dstack_succeeds {A} (ms : list (list (list A))) h w :
  ms ≠ [] → Forall (shaped h w) ms → ∃ st, np_dstack ms = ([], inr st).
Proof.
  intros Hne Hall. destruct ms as [|m ms']; [done|].
  unfold np_dstack.
  destruct (np_shape2 m) as [h0 w0] eqn:Hs.
  assert (Hok : forallb (has_shape2 h0 w0) (m :: ms') = true).
  { apply List.forallb_forall. intros m' Hin. apply has_shape2_spec.
    rewrite List.Forall_forall in Hall.
    pose proof (Hall m (or_introl eq_refl)) as [Hlm Hrm].
    destruct (Hall m' Hin) as [Hl Hr].
    unfold np_shape2 in Hs. injection Hs as <- <-.
    destruct m as [|r m0].
    - simpl in Hlm. subst h. destruct m'; [|discriminate]. by split.
    - apply Forall_cons in Hrm as [-> _]. split; [by rewrite Hl|done]. }
  rewrite Hok. eauto.
Qed.




(** ** Outcomes of the local adapter *)

Lemma length_cluster_values (label : list (list Z)) :
  length (cluster_values label) = size (nonzero_values label).
Proof.
  destruct (cluster_values_spec label) as (_ & Hnd & Hel).
  unfold size, set_size. simpl.
  apply Permutation_length, NoDup_Permutation; [done|apply NoDup_elements|].
  intros v. by rewrite elem_of_elements.
Qed.

(** X18. The local adapter returns a sample whenever the index is valid
    for both path lists, both files are found, and the label image is
    rectangular with at least one non-zero pixel; the sample carries the
    index as image_id, the opened image converted to RGB (passed through
    the transform, when one is configured), and one box per distinct
    non-zero value of the label image. *)
Theorem Edf_getitem_returns w self idx ip image mp label H W r c v :
  py_getitem (EdfDataset.img_paths self) idx = ([], inr ip) →
  image_files w !! ip = Some image →
  py_getitem (EdfDataset.mask_paths self) idx = ([], inr mp) →
  label_files w !! mp = Some label →
  shaped H W label →
  at2 label r c = Some v → v ≠ 0%Z →
  ∃ t, EdfDataset.__getitem__ w self idx
       = ([], inr (apply_transforms (EdfDataset.transforms self)
                     (convert_RGB w image, t))) ∧
       image_id t = [idx] ∧
       length (boxes t) = size (nonzero_values label).
Proof.
  intros Hip Himg Hmp Hlabel Hshaped Hrc Hnz.
  destruct (np_dstack_succeeds (extract_masks_from_cluster label) H W) as [st Hst].
  - intros Hnil. apply (f_equal length) in Hnil.
    unfold extract_masks_from_cluster in Hnil. rewrite length_map in Hnil.
    pose proof (at2_occurs label r c v Hrc Hnz) as Hin.
    destruct (cluster_values label); [by apply not_elem_of_nil in Hin|done].
  - unfold extract_masks_from_cluster. apply Forall_fmap, List.Forall_forall.
    intros v' _. by apply cluster_mask_shaped.
  - unfold EdfDataset.__getitem__, EdfDataset.bbox_extractor_argument.
    rewrite Hip. unfold Image_open, load_image_as_np_array. cbn [bind].
    rewrite Himg. cbn [bind ret]. rewrite Hmp. cbn [bind]. rewrite Hlabel.
    cbn [bind ret]. rewrite Hst. cbn [bind ret app].
    eexists. split; [reflexivity|]. split; [reflexivity|].
    cbn [boxes]. unfold as_float32. rewrite length_map, length_extract_bboxes.
    apply np_dstack_inr in Hst as (_ & m & ms' & h & w' & _ & _ & _ & ->).
    simpl. unfold extract_masks_from_cluster.
    by rewrite length_map, length_cluster_values.
Qed.

Lemma Edf_getitem_returns_witness :
  ∃ t, EdfDataset.__getitem__ sample_world edf_2x3 0
       = ([], inr ([[[3%Z; 3%Z; 3%Z]]], t)) ∧
       image_id t = [0%Z] ∧
       length (boxes t) = size (nonzero_values label_2x3).
Proof.
  apply (Edf_getitem_returns sample_world edf_2x3 0 "e/image/b_00001.png"%string
           [[[3%Z; 3%Z; 3%Z]]] "e/label/b_00001.png"%string label_2x3
           2 3 0 0 5%Z);
    try (vm_compute; reflexivity).
  - repeat constructor.
  - discriminate.
Defined.

(** ** The constructor of the local adapter and the check *)

Lemma string_app_assoc (a b c : string) : (a +:+ b) +:+ c = a +:+ (b +:+ c).
Proof.
  induction a as [|x a IH]; [done|].
  change ((String x (a +:+ b)) +:+ c = String x (a +:+ (b +:+ c))).
  change (String x ((a +:+ b) +:+ c) = String x (a +:+ (b +:+ c))).
  by rewrite IH.
Qed.

Lemma os_path_join_basename (d n : string) :
  is_basename n = true → os_path_join d n = dir_prefix d +:+ n.
Proof.
  unfold is_basename, os_path_join, dir_prefix. destruct n as [|c n]; [done|].
  intros Hc. destruct (bool_decide (c = "/"%char)); [done|].
  destruct (bool_decide (d = ""%string) || ends_with_slash d); [done|].
  by rewrite string_app_assoc.
Qed.

Lemma ends_with_slash_app (x leaf : string) c :
  String.get (String.length leaf - 1) leaf = Some c → leaf ≠ ""%string →
  ends_with_slash (x +:+ leaf) = bool_decide (c = "/"%char).
Proof.
  intros Hc Hne. unfold ends_with_slash. rewrite string_length_app.
  replace (String.length x + String.length leaf - 1)
    with (String.length leaf - 1 + String.length x).
  - by rewrite <- String.append_correct2, Hc.
  - destruct leaf; [done|]. simpl. lia.
Qed.

(** The path of entry [n] of the sub-directory [sub] of the dataset. *)
Lemma dataset_path (d sub n : string) c :
  is_basename sub = true → is_basename n = true →
  String.get (String.length sub - 1) sub = Some c → c ≠ "/"%char →
  os_path_join (os_path_join d sub) n = dir_prefix d +:+ sub +:+ "/" +:+ n.
Proof.
  intros Hsub Hn Hc Hne.
  rewrite (os_path_join_basename d sub Hsub), (os_path_join_basename _ n Hn).
  unfold dir_prefix at 1.
  assert (Hsub' : sub ≠ ""%string) by (by destruct sub).
  rewrite (ends_with_slash_app _ sub c Hc Hsub').
  rewrite (bool_decide_eq_false_2 (c = "/"%char) Hne).
  rewrite bool_decide_eq_false_2.
  - simpl. by rewrite !string_app_assoc.
  - destruct (dir_prefix d); destruct sub; done.
Qed.

Lemma py_slice_long (s : string) :
  9 ≤ String.length s →
  py_slice s (-9) (-4) = String.substring (String.length s - 9) 5 s.
Proof.
  intros Hs. unfold py_slice, py_slice_bound. cbv zeta.
  change (-9 <? 0)%Z with true. change (-4 <? 0)%Z with true. cbv iota.
  f_equal; lia.
Qed.

Lemma py_slice_suffix (p s : string) :
  9 ≤ String.length s →
  py_slice (p +:+ s) (-9) (-4) = py_slice s (-9) (-4).
Proof.
  intros Hs. rewrite !py_slice_long by (rewrite ?string_length_app; lia).
  rewrite string_length_app.
  replace (String.length p + String.length s - 9)
    with (String.length p + (String.length s - 9)) by lia.
  apply substring_skip.
Qed.

(** Two paths that end with the same nine characters are not flagged. *)
Lemma mismatch_same_suffix (p1 p2 s : string) :
  9 ≤ String.length s → EdfDataset.mismatch (p1 +:+ s, p2 +:+ s) = false.
Proof.
  intros Hs. unfold EdfDataset.mismatch. cbn [fst snd].
  rewrite !py_slice_suffix by done. by rewrite String.eqb_refl.
Qed.

(** The image and the label of one name of 3 to 7 characters are
    flagged: the slices reach into the directory names. *)
Lemma mismatch_short_name (x n : string) :
  3 ≤ String.length n ≤ 7 →
  EdfDataset.mismatch (x +:+ "image" +:+ "/" +:+ n, x +:+ "label" +:+ "/" +:+ n)
  = true.
Proof.
  intros Hn. unfold EdfDataset.mismatch. cbn [fst snd].
  assert (Hi : String.length ("image" +:+ "/" +:+ n) = 5 + (1 + String.length n))
    by (by rewrite !string_length_app).
  assert (Hl : String.length ("label" +:+ "/" +:+ n) = 5 + (1 + String.length n))
    by (by rewrite !string_length_app).
  rewrite (py_slice_suffix x ("image" +:+ "/" +:+ n)) by lia.
  rewrite (py_slice_suffix x ("label" +:+ "/" +:+ n)) by lia.
  rewrite (py_slice_long ("image" +:+ "/" +:+ n)) by lia.
  rewrite (py_slice_long ("label" +:+ "/" +:+ n)) by lia.
  rewrite !string_length_app.
  change (String.length "image") with 5. change (String.length "label") with 5.
  change (String.length "/") with 1.
  replace (5 + (1 + String.length n) - 9) with (String.length n - 3) by lia.
  change ("image" +:+ "/" +:+ n) with
    (String "i" (String "m" (String "a" (String "g" (String "e" (String "/" n)))))).
  change ("label" +:+ "/" +:+ n) with
    (String "l" (String "a" (String "b" (String "e" (String "l" (String "/" n)))))).
  destruct (String.length n - 3) as [|[|[|[|[|k]]]]] eqn:Ek; [..|lia];
    reflexivity.
Qed.

Lemma check_loop_eq pairs :
  EdfDataset.check_loop pairs =
  (if existsb EdfDataset.mismatch pairs
   then ["Image and label do not match."%string] else [], inr tt).
Proof.
  induction pairs as [|p rest IH]; [done|].
  simpl. by destruct (EdfDataset.mismatch p).
Qed.

Lemma sorted_str_spec (l : list string) :
  Sorted String.le (sorted_str l) ∧ sorted_str l ≡ₚ l.
Proof.
  unfold sorted_str. split.
  - apply (Sorted_merge_sort String.le).
  - apply merge_sort_Permutation.
Qed.

Lemma sorted_str_Permutation (l1 l2 : list string) :
  l1 ≡ₚ l2 → sorted_str l1 = sorted_str l2.
Proof.
  intros Hp. destruct (sorted_str_spec l1) as [Hs1 Hp1].
  destruct (sorted_str_spec l2) as [Hs2 Hp2].
  apply (Sorted_unique String.le); [done..|]. by rewrite Hp1, Hp2.
Qed.

Lemma Edf_init_inv dirs d tr out self :
  EdfDatasetInit.__init__ dirs d tr = (out, inr self) →
  ∃ imgs lbls,
    dirs !! os_path_join d "image" = Some imgs ∧
    dirs !! os_path_join d "label" = Some lbls ∧
    self = EdfDataset.mk
             (map (os_path_join (os_path_join d "image")) (sorted_str imgs))
             (map (os_path_join (os_path_join d "label")) (sorted_str lbls)) tr.
Proof.
  unfold EdfDatasetInit.__init__, os_listdir. intros H.
  apply bind_inr in H as (o1 & imgs & o2 & Hi & H & _).
  apply lookup_silent in Hi as [_ Hi].
  apply bind_inr in H as (o3 & lbls & o4 & Hl & H & _).
  apply lookup_silent in Hl as [_ Hl].
  injection H as _ <-. by exists imgs, lbls.
Qed.

(** X19. The constructor of the local adapter lists the image and the
    label directory of the dataset, each in ascending name order: the
    paths are the directory entries, each once, joined to their
    directory, sorted by name; the length of the dataset is the number
    of entries of the image directory, whatever the label directory
    holds. *)
Theorem Edf_init_spec dirs d tr out self :
  EdfDatasetInit.__init__ dirs d tr = (out, inr self) →
  ∃ imgs lbls inames lnames,
    dirs !! os_path_join d "image" = Some imgs ∧
    dirs !! os_path_join d "label" = Some lbls ∧
    inames ≡ₚ imgs ∧ Sorted String.le inames ∧
    lnames ≡ₚ lbls ∧ Sorted String.le lnames ∧
    EdfDataset.img_paths self = map (os_path_join (os_path_join d "image")) inames ∧
    EdfDataset.mask_paths self = map (os_path_join (os_path_join d "label")) lnames ∧
    EdfDataset.transforms self = tr ∧
    EdfDataset.__len__ self = length imgs.
Proof.
  intros H. apply Edf_init_inv in H as (imgs & lbls & Hi & Hl & ->).
  destruct (sorted_str_spec imgs) as [Hsi Hpi].
  destruct (sorted_str_spec lbls) as [Hsl Hpl].
  exists imgs, lbls, (sorted_str imgs), (sorted_str lbls).
  repeat (split; [done|]).
  unfold EdfDataset.__len__. simpl. by rewrite length_map, Hpi.
Qed.

Lemma Edf_init_spec_witness :
  ∃ self,
    EdfDatasetInit.__init__ sample_dirs "data" None = ([], inr self) ∧
    EdfDataset.img_paths self
      = ["data/image/tile_00001.png"; "data/image/tile_00002.png"]%string ∧
    EdfDataset.__len__ self = 2.
Proof.
  eexists. split; [vm_compute; reflexivity|]. split; [reflexivity|].
  destruct (Edf_init_spec sample_dirs "data" None [] _
              ltac:(vm_compute; reflexivity))
    as (imgs & lbls & inames & lnames & Hi & _ & _ & _ & _ & _ & _ & _ & _ & Hlen).
  vm_compute in Hi. injection Hi as <-. exact Hlen.
Defined.

(** X20. When the image directory and the label directory hold the same
    names, in whatever order the listings give them, the constructor
    pairs them by position: entry i of the image paths and entry i of the
    label paths are the paths of one and the same name. *)
Theorem Edf_init_pairs_same_names dirs d tr out self imgs lbls :
  EdfDatasetInit.__init__ dirs d tr = (out, inr self) →
  dirs !! os_path_join d "image" = Some imgs →
  dirs !! os_path_join d "label" = Some lbls →
  imgs ≡ₚ lbls →
  ∃ names,
    names ≡ₚ imgs ∧
    EdfDataset.img_paths self = map (os_path_join (os_path_join d "image")) names ∧
    EdfDataset.mask_paths self = map (os_path_join (os_path_join d "label")) names.
Proof.
  intros H Hi Hl Hp. apply Edf_init_inv in H as (imgs' & lbls' & Hi' & Hl' & ->).
  rewrite Hi in Hi'. injection Hi' as <-. rewrite Hl in Hl'. injection Hl' as <-.
  exists (sorted_str imgs). split; [apply sorted_str_spec|].
  split; [done|]. simpl. by rewrite (sorted_str_Permutation imgs lbls Hp).
Qed.

Lemma Edf_init_pairs_same_names_witness :
  ∃ self names,
    EdfDatasetInit.__init__ sample_dirs "data" None = ([], inr self) ∧
    EdfDataset.img_paths self = map (os_path_join "data/image") names ∧
    EdfDataset.mask_paths self = map (os_path_join "data/label") names.
Proof.
  eexists.
  destruct (Edf_init_pairs_same_names sample_dirs "data" None [] _
              ["tile_00002.png"; "tile_00001.png"]%string
              ["tile_00001.png"; "tile_00002.png"]%string
              ltac:(vm_compute; reflexivity) eq_refl eq_refl
              ltac:(apply perm_swap))
    as (names & _ & Hi & Hm).
  exists names. split; [vm_compute; reflexivity|]. by split.
Defined.

Lemma existsb_zip_map_false {A B C} (p : B * C → bool) (f : A → B) (g : A → C) l :
  (∀ x, x ∈ l → p (f x, g x) = false) →
  existsb p (zip (map f l) (map g l)) = false.
Proof.
  induction l as [|x l IH]; intros H; [done|]. simpl.
  rewrite (H x) by apply list_elem_of_here. simpl.
  apply IH. intros y Hy. apply H. by apply list_elem_of_further.
Qed.

Lemma existsb_zip_map_true {A B C} (p : B * C → bool) (f : A → B) (g : A → C) l x :
  x ∈ l → p (f x, g x) = true →
  existsb p (zip (map f l) (map g l)) = true.
Proof.
  intros Hin Hp. induction Hin as [x l|x y l Hin IH]; simpl.
  - by rewrite Hp.
  - rewrite IH by done. apply orb_true_r.
Qed.

Lemma image_label_paths (d n : string) :
  is_basename n = true →
  os_path_join (os_path_join d "image") n
    = dir_prefix d +:+ "image" +:+ "/" +:+ n ∧
  os_path_join (os_path_join d "label") n
    = dir_prefix d +:+ "label" +:+ "/" +:+ n.
Proof.
  intros Hn. split.
  - by apply (dataset_path d "image" n "e"%char).
  - by apply (dataset_path d "label" n "l"%char).
Qed.

(** X21. On a dataset built by the constructor from two directories
    that hold the same names, all of at least eight characters, the
    check prints nothing and returns normally. *)
Theorem Edf_init_check_silent dirs d tr out self imgs lbls :
  EdfDatasetInit.__init__ dirs d tr = (out, inr self) →
  dirs !! os_path_join d "image" = Some imgs →
  dirs !! os_path_join d "label" = Some lbls →
  imgs ≡ₚ lbls →
  Forall (fun n => is_basename n = true ∧ 8 ≤ String.length n) imgs →
  EdfDataset.check self = ([], inr tt).
Proof.
  intros H Hi Hl Hp Hnames.
  apply Edf_init_inv in H as (imgs' & lbls' & Hi' & Hl' & ->).
  rewrite Hi in Hi'. injection Hi' as <-. rewrite Hl in Hl'. injection Hl' as <-.
  unfold EdfDataset.check. cbn [EdfDataset.img_paths EdfDataset.mask_paths].
  rewrite <- (sorted_str_Permutation imgs lbls Hp), check_loop_eq.
  rewrite existsb_zip_map_false; [done|].
  intros n Hin. destruct (sorted_str_spec imgs) as [_ Hperm].
  rewrite Hperm in Hin. rewrite Forall_forall in Hnames.
  destruct (Hnames n Hin) as [Hb Hlen].
  destruct (image_label_paths d n Hb) as [-> ->].
  rewrite <- !(string_app_assoc (dir_prefix d)).
  apply mismatch_same_suffix. rewrite string_length_app.
  change (String.length "/") with 1. lia.
Qed.

Lemma Edf_init_check_silent_witness :
  ∃ self,
    EdfDatasetInit.__init__ sample_dirs "data" None = ([], inr self) ∧
    EdfDataset.check self = ([], inr tt).
Proof.
  eexists. split; [vm_compute; reflexivity|].
  apply (Edf_init_check_silent sample_dirs "data" None [] _
           ["tile_00002.png"; "tile_00001.png"]%string
           ["tile_00001.png"; "tile_00002.png"]%string);
    [vm_compute; reflexivity | reflexivity | reflexivity | apply perm_swap |].
  repeat constructor; simpl; lia.
Defined.

(** X22. On a dataset built by the constructor from two directories
    that hold the same names, the check still prints its warning as soon
    as one name has 3 to 7 characters (such as 1.png): for such a name
    the compared slice reaches into the directory names image and label,
    which differ. *)
Theorem Edf_init_check_false_alarm dirs d tr out self imgs lbls n :
  EdfDatasetInit.__init__ dirs d tr = (out, inr self) →
  dirs !! os_path_join d "image" = Some imgs →
  dirs !! os_path_join d "label" = Some lbls →
  imgs ≡ₚ lbls →
  n ∈ imgs → is_basename n = true → 3 ≤ String.length n ≤ 7 →
  EdfDataset.check self = (["Image and label do not match."%string], inr tt).
Proof.
  intros H Hi Hl Hp Hin Hb Hlen.
  apply Edf_init_inv in H as (imgs' & lbls' & Hi' & Hl' & ->).
  rewrite Hi in Hi'. injection Hi' as <-. rewrite Hl in Hl'. injection Hl' as <-.
  unfold EdfDataset.check. cbn [EdfDataset.img_paths EdfDataset.mask_paths].
  rewrite <- (sorted_str_Permutation imgs lbls Hp), check_loop_eq.
  rewrite (existsb_zip_map_true _ _ _ _ n); [done| |].
  - destruct (sorted_str_spec imgs) as [_ Hperm]. by rewrite Hperm.
  - destruct (image_label_paths d n Hb) as [-> ->].
    by apply mismatch_short_name.
Qed.

Lemma Edf_init_check_false_alarm_witness :
  ∃ self,
    EdfDatasetInit.__init__ short_dirs "data" None = ([], inr self) ∧
    EdfDataset.img_paths self = ["data/image/1.png"; "data/image/2.png"]%string ∧
    EdfDataset.mask_paths self = ["data/label/1.png"; "data/label/2.png"]%string ∧
    EdfDataset.check self = (["Image and label do not match."%string], inr tt).
Proof.
  eexists. split; [vm_compute; reflexivity|].
  split; [reflexivity|]. split; [reflexivity|].
  apply (Edf_init_check_false_alarm short_dirs "data" None [] _
           ["2.png"; "1.png"]%string ["1.png"; "2.png"]%string "1.png"%string);
    [vm_compute; reflexivity | reflexivity | reflexivity | apply perm_swap
    | | reflexivity | simpl; lia].
  apply list_elem_of_further, list_elem_of_here.
Defined.

(** * Statements for every dataset, with or without transform *)

(** ** Rounding to float32 *)

Lemma f32_exact (z : Z) : (Z.abs z ≤ 2 ^ 24)%Z → f32 z = z.
Proof.
  intros Hz. unfold f32. cbv zeta.
  destruct (Z.ltb_spec (Z.abs z) (2 ^ 24)); [done|].
  change (2 ^ 24)%Z with 16777216%Z in *.
  assert (z = 16777216 ∨ z = -16777216)%Z as [-> | ->] by lia; reflexivity.
Qed.

Lemma f32_pos (z : Z) : (0 < z)%Z → (0 < f32 z)%Z.
Proof.
  intros Hz. unfold f32. cbv zeta.
  destruct (Z.ltb_spec (Z.abs z) (2 ^ 24)) as [|Hge]; [done|].
  rewrite (Z.abs_eq z) in * by lia. rewrite (Z.sgn_pos z) by lia.
  assert (He : (24 ≤ Z.log2 z)%Z).
  { rewrite <- (Z.log2_pow2 24) by lia. by apply Z.log2_le_mono. }
  set (e := (Z.log2 z - 23)%Z).
  assert (Hp : (0 < 2 ^ e)%Z) by (apply Z.pow_pos_nonneg; lia).
  assert (Hq : (2 ^ 23 ≤ z / 2 ^ e)%Z).
  { apply Z.div_le_lower_bound; [done|].
    rewrite <- Z.pow_add_r by lia.
    replace (e + 23)%Z with (Z.log2 z) by lia.
    by apply Z.log2_spec. }
  assert (H23 : (0 < 2 ^ 23)%Z) by done.
  rewrite Z.mul_1_l. apply Z.mul_pos_pos; [|done].
  repeat case_match; lia.
Qed.

Example f32_rounds_4097_squared : f32 (4097 * 4097) = 16785408%Z.
Proof. reflexivity. Qed.

(** ** From a result to the assembled sample *)

Lemma Edf_getitem_assembled w self idx out res :
  EdfDataset.__getitem__ w self idx = (out, inr res) →
  ∃ img t, Edf_assembled w self idx out res img t.
Proof.
  rewrite Edf_getitem_transforms. intros H.
  apply bind_inr in H as (o1 & [img t] & o2 & Hs & Hr & ->).
  injection Hr as <- <-. exists img, t. split; [|done].
  by rewrite app_nil_r.
Qed.

Lemma Crowd_getitem_assembled w self idx out res :
  CrowdDataset.__getitem__ w self idx = (out, inr res) →
  ∃ img t, Crowd_assembled w self idx out res img t.
Proof.
  rewrite Crowd_getitem_transforms. intros H.
  apply bind_inr in H as (o1 & [img t] & o2 & Hs & Hr & ->).
  injection Hr as <- <-. exists img, t. split; [|done].
  by rewrite app_nil_r.
Qed.

(** Every step of a successful access of the local adapter. *)
Lemma Edf_run_inv w self idx out img t :
  EdfDataset.transforms self = None →
  EdfDataset.__getitem__ w self idx = (out, inr (img, t)) →
  ∃ ip opened mp label st,
    out = [] ∧
    py_getitem (EdfDataset.img_paths self) idx = ([], inr ip) ∧
    image_files w !! ip = Some opened ∧
    img = convert_RGB w opened ∧
    py_getitem (EdfDataset.mask_paths self) idx = ([], inr mp) ∧
    label_files w !! mp = Some label ∧
    np_dstack (extract_masks_from_cluster label) = ([], inr st) ∧
    t = mkTarget (as_float32 (extract_bboxes_from_mask st))
          (replicate (length (extract_masks_from_cluster label)) 1%Z)
          (as_uint8 (extract_masks_from_cluster label)) [idx]
          (map box_area_f32 (as_float32 (extract_bboxes_from_mask st)))
          (replicate (length (extract_masks_from_cluster label)) 0%Z).
Proof.
  intros Htr H. apply Edf_getitem_inv in H as (mcf & st & H & ->); [|done].
  unfold EdfDataset.bbox_extractor_argument in H.
  apply bind_inr in H as (o1 & ip & o1' & Hip & H & ->).
  pose proof (py_getitem_inr _ _ _ _ Hip) as [-> _].
  apply bind_inr in H as (o2 & opened & o2' & Hop & H & ->).
  apply lookup_silent in Hop as [-> Hop].
  apply bind_inr in H as (o3 & mp & o3' & Hmp & H & ->).
  pose proof (py_getitem_inr _ _ _ _ Hmp) as [-> _].
  apply bind_inr in H as (o4 & label & o4' & Hlabel & H & ->).
  apply lookup_silent in Hlabel as [-> Hlabel].
  apply bind_inr in H as (o5 & st' & o5' & Hst & H & ->).
  pose proof (np_dstack_inr _ _ _ Hst) as [-> _].
  injection H as <- <- <- <-.
  by exists ip, opened, mp, label, st'.
Qed.

(** ** The external-annotation adapter *)

(** C2. For every sample the external-annotation adapter returns, with
    or without a transform configured, the sample it assembled (which it
    returns as it is, or hands to the transform) is such that every
    emitted box has x1 > x0 and y1 > y0, no entry of the crowd-flag
    array is 1 (all are 0), and the emitted instances come from
    annotation records whose crowd flag is 0: the emitted masks are those
    of a sub-sequence of the image's records, one per emitted box, none
    of them crowd-flagged. *)
Theorem Crowd_emitted_boxes_valid_no_crowd w self idx out res :
  CrowdDataset.__getitem__ w self idx = (out, inr res) →
  ∃ img t,
    Crowd_assembled w self idx out res img t ∧
    Forall (fun b => (x1 b > x0 b)%Z ∧ (y1 b > y0 b)%Z) (boxes t) ∧
    Forall (fun c => c ≠ 1%Z ∧ c = 0%Z) (iscrowd t) ∧
    ∃ id kept,
      image_id t = [id] ∧
      sublist kept (loadAnns_of (CrowdDataset.coco self) id) ∧
      Forall (fun obj => ann_iscrowd obj = 0%Z) kept ∧
      masks t = as_uint8 (map annToMask kept) ∧
      length (boxes t) = length kept.
Proof.
  intros H. apply Crowd_getitem_assembled in H as (img & t & Ha).
  exists img, t. split; [done|]. destruct Ha as [Hs _].
  exact (Crowd_plain_boxes_valid_no_crowd w (Crowd_without_transforms self)
           idx out img t eq_refl Hs).
Qed.

Lemma Crowd_emitted_boxes_valid_no_crowd_witness :
  ∃ img t,
    CrowdDataset.__getitem__ sample_world sample_crowd 1 = ([], inr (img, t)) ∧
    boxes t = [mkBox 1 0 2 2] ∧
    Forall (fun b => (x1 b > x0 b)%Z ∧ (y1 b > y0 b)%Z) (boxes t) ∧
    Forall (fun c => c ≠ 1%Z ∧ c = 0%Z) (iscrowd t).
Proof.
  eexists _, _. split; [vm_compute; reflexivity|].
  split; [reflexivity|].
  destruct (Crowd_emitted_boxes_valid_no_crowd sample_world sample_crowd 1 [] _
              ltac:(vm_compute; reflexivity))
    as (img & t & [_ Hres] & Hb & Hc & _).
  injection Hres as <- <-. by split.
Defined.

(** ** The local adapter: labels, crowd flags and area *)

Lemma box_area_f32_exact (b : Box) :
  (Z.abs (x1 b - x0 b) ≤ 2 ^ 24)%Z → (Z.abs (y1 b - y0 b) ≤ 2 ^ 24)%Z →
  (Z.abs ((x1 b - x0 b) * (y1 b - y0 b)) ≤ 2 ^ 24)%Z →
  box_area_f32 b = ((x1 b - x0 b) * (y1 b - y0 b))%Z.
Proof.
  intros Hx Hy Hxy. unfold box_area_f32.
  rewrite (f32_exact _ Hx), (f32_exact _ Hy), Z.mul_comm. by apply f32_exact.
Qed.

Lemma Edf_plain_label_crowd_area w self idx out img t :
  EdfDataset.transforms self = None →
  EdfDataset.__getitem__ w self idx = (out, inr (img, t)) →
  length (labels t) = length (boxes t) ∧
  length (iscrowd t) = length (boxes t) ∧
  Forall (fun l => l = 1%Z) (labels t) ∧
  Forall (fun c => c = 0%Z) (iscrowd t) ∧
  Forall2 (fun b a =>
      a = f32 (f32 (x1 b - x0 b) * f32 (y1 b - y0 b)) ∧
      ((Z.abs (x1 b - x0 b) ≤ 2 ^ 24)%Z → (Z.abs (y1 b - y0 b) ≤ 2 ^ 24)%Z →
       (Z.abs ((x1 b - x0 b) * (y1 b - y0 b)) ≤ 2 ^ 24)%Z →
       a = ((x1 b - x0 b) * (y1 b - y0 b))%Z))
    (boxes t) (area t).
Proof.
  intros Htr H.
  destruct (Edf_cardinality _ _ _ _ _ _ Htr H) as (Hl & _ & _ & Hc).
  apply Edf_getitem_inv in H as (mcf & st & _ & ->); [|done].
  split; [done|]. split; [done|]. cbn [labels iscrowd boxes area].
  split; [apply Forall_replicate; done|].
  split; [apply Forall_replicate; done|].
  apply Forall2_fmap_r, Forall_Forall2_diag, List.Forall_forall.
  intros b _. split.
  - unfold box_area_f32. by rewrite Z.mul_comm.
  - apply box_area_f32_exact.
Qed.

(** C7, amended. For every sample the local label-image adapter
    returns, with or without a transform configured, the sample it
    assembled has, for every instance, class label 1, crowd flag 0, and
    as area the float32 product (x1 - x0) * (y1 - y0) of the float32
    extents of its box: that is the exact product whenever the extents
    and the product are at most 2^24, and the product rounded to
    float32 beyond. The three arrays have one entry per box. *)
Theorem Edf_instances_label_crowd_area w self idx out res :
  EdfDataset.__getitem__ w self idx = (out, inr res) →
  ∃ img t,
    Edf_assembled w self idx out res img t ∧
    length (labels t) = length (boxes t) ∧
    length (iscrowd t) = length (boxes t) ∧
    Forall (fun l => l = 1%Z) (labels t) ∧
    Forall (fun c => c = 0%Z) (iscrowd t) ∧
    Forall2 (fun b a =>
        a = f32 (f32 (x1 b - x0 b) * f32 (y1 b - y0 b)) ∧
        ((Z.abs (x1 b - x0 b) ≤ 2 ^ 24)%Z → (Z.abs (y1 b - y0 b) ≤ 2 ^ 24)%Z →
         (Z.abs ((x1 b - x0 b) * (y1 b - y0 b)) ≤ 2 ^ 24)%Z →
         a = ((x1 b - x0 b) * (y1 b - y0 b))%Z))
      (boxes t) (area t).
Proof.
  intros H. apply Edf_getitem_assembled in H as (img & t & Ha).
  exists img, t. split; [done|]. destruct Ha as [Hs _].
  exact (Edf_plain_label_crowd_area w (Edf_without_transforms self)
           idx out img t eq_refl Hs).
Qed.

Lemma Edf_instances_label_crowd_area_witness :
  ∃ img t,
    EdfDataset.__getitem__ sample_world sample_edf 0 = ([], inr (img, t)) ∧
    boxes t = [mkBox 3 2 6 5] ∧ area t = [9%Z] ∧
    Forall (fun l => l = 1%Z) (labels t) ∧
    Forall (fun c => c = 0%Z) (iscrowd t).
Proof.
  eexists _, _. split; [vm_compute; reflexivity|].
  split; [reflexivity|]. split; [reflexivity|].
  destruct (Edf_instances_label_crowd_area sample_world sample_edf 0 [] _
              ltac:(vm_compute; reflexivity))
    as (img & t & [_ Hres] & _ & _ & Hl & Hc & _).
  injection Hres as <- <-. by split.
Defined.

(** *** A box too large for float32 *)

Lemma bbox_of_channel_encloses s i r c :
  r < (nd_shape s).1.1 → c < (nd_shape s).1.2 → px s r c i = true →
  let b := bbox_of_channel s i in
  (x0 b ≤ Z.of_nat c < x1 b)%Z ∧ (y0 b ≤ Z.of_nat r < y1 b)%Z.
Proof.
  intros Hr Hc Hp.
  assert (Hcol : In c (true_cols s i)).
  { apply In_true_cols. split; [done|]. by exists r. }
  assert (Hrow : In r (true_rows s i)).
  { apply In_true_rows. split; [done|]. by exists c. }
  unfold bbox_of_channel.
  destruct (true_cols s i) as [|c0 cs] eqn:Ecols; [destruct Hcol|].
  destruct (true_rows s i) as [|r0 rs] eqn:Erows; [destruct Hrow|].
  destruct (foldr_min_spec c0 cs) as [_ Hcmin].
  destruct (foldr_max_spec c0 cs) as [_ Hcmax].
  destruct (foldr_min_spec r0 rs) as [_ Hrmin].
  destruct (foldr_max_spec r0 rs) as [_ Hrmax].
  specialize (Hcmin _ Hcol). specialize (Hcmax _ Hcol).
  specialize (Hrmin _ Hrow). specialize (Hrmax _ Hrow).
  simpl. lia.
Qed.

Lemma px_stacked ms st i m r c :
  stacked_last_axis ms st → ms !! i = Some m →
  px st r c i = true ↔ at2 m r c = Some true.
Proof.
  intros (h & w & _ & _ & _ & _ & Hat) Hi. unfold px.
  rewrite (Hat _ _ _ _ Hi). destruct (at2 m r c) as [[]|]; simpl; split; done.
Qed.

Lemma list_singleton_of_elems {A} (l : list A) (a : A) :
  NoDup l → (∀ v, v ∈ l ↔ v = a) → l = [a].
Proof.
  intros Hnd Hel. destruct l as [|x l].
  - exfalso. eapply not_elem_of_nil, Hel. reflexivity.
  - assert (x = a) as -> by (apply Hel, list_elem_of_here).
    destruct l as [|y l]; [done|]. exfalso.
    assert (y = a) as -> by (apply Hel, list_elem_of_further, list_elem_of_here).
    apply NoDup_cons in Hnd as [Hnin _]. apply Hnin, list_elem_of_here.
Qed.

Lemma big_label_at r c :
  r < 4097 → c < 4097 → at2 big_label r c = Some 1%Z.
Proof.
  intros Hr Hc. unfold at2, big_label.
  rewrite lookup_replicate_2 by done. by rewrite lookup_replicate_2.
Qed.

Lemma cluster_values_big_label : cluster_values big_label = [1%Z].
Proof.
  destruct (cluster_values_spec big_label) as (_ & Hnd & Hel).
  apply list_singleton_of_elems; [done|]. intros v.
  rewrite Hel, elem_of_nonzero_values. split.
  - intros (_ & row & Hrow & Hv). unfold big_label in Hrow.
    apply elem_of_replicate in Hrow as [-> _].
    by apply elem_of_replicate in Hv as [-> _].
  - intros ->. split; [done|]. exists (replicate 4097 1%Z). split.
    + unfold big_label. apply elem_of_replicate. split; [done|]. discriminate.
    + apply elem_of_replicate. split; [done|]. discriminate.
Qed.

Lemma big_label_shaped : shaped 4097 4097 big_label.
Proof.
  unfold shaped, big_label. rewrite length_replicate. split; [done|].
  apply Forall_replicate, length_replicate.
Qed.

Lemma Edf_getitem_run w self idx ip opened mp label st :
  py_getitem (EdfDataset.img_paths self) idx = ([], inr ip) →
  image_files w !! ip = Some opened →
  py_getitem (EdfDataset.mask_paths self) idx = ([], inr mp) →
  label_files w !! mp = Some label →
  np_dstack (extract_masks_from_cluster label) = ([], inr st) →
  EdfDataset.__getitem__ w self idx
  = ([], inr (apply_transforms (EdfDataset.transforms self)
       (convert_RGB w opened,
        mkTarget (as_float32 (extract_bboxes_from_mask st))
          (replicate (length (extract_masks_from_cluster label)) 1%Z)
          (as_uint8 (extract_masks_from_cluster label))
          [idx]
          (map box_area_f32 (as_float32 (extract_bboxes_from_mask st)))
          (replicate (length (extract_masks_from_cluster label)) 0%Z)))).
Proof.
  intros Hip Himg Hmp Hlabel Hst.
  unfold EdfDataset.__getitem__, EdfDataset.bbox_extractor_argument.
  rewrite Hip. unfold Image_open, load_image_as_np_array. cbn [bind].
  rewrite Himg. cbn [bind ret]. rewrite Hmp. cbn [bind]. rewrite Hlabel.
  cbn [bind ret]. rewrite Hst. reflexivity.
Qed.

Lemma single_instance_boxes (label : list (list Z)) (H W : nat) v st out :
  shaped (S H) (S W) label →
  (∀ r c, r < S H → c < S W → at2 label r c = Some v) →
  cluster_values label = [v] →
  np_dstack (extract_masks_from_cluster label) = (out, inr st) →
  extract_bboxes_from_mask st
  = [mkBox 0 0 (Z.of_nat W + 1) (Z.of_nat H + 1)].
Proof.
  intros Hshaped Hat Hvals Hst.
  pose proof (np_dstack_stacked _ _ _ Hst) as Hstacked.
  pose proof Hstacked as (h & w & Hshape & _ & Hall & _ & _).
  unfold extract_masks_from_cluster in Hall, Hstacked, Hshape.
  rewrite Hvals in Hall, Hstacked, Hshape.
  cbn [map length] in Hall, Hstacked, Hshape.
  apply Forall_cons in Hall as [Hm _]. apply cluster_mask_shaped in Hm.
  destruct Hm as [Hh Hw]. destruct Hshaped as [Hh' Hw'].
  assert (h = S H) as -> by congruence.
  destruct label as [|row label']; [discriminate|].
  apply Forall_cons in Hw as [Hw _]. apply Forall_cons in Hw' as [Hw' _].
  assert (w = S W) as -> by congruence.
  assert (Hpx : ∀ r c, r < S H → c < S W → px st r c 0 = true).
  { intros r c Hr Hc.
    apply (px_stacked _ _ 0 (cluster_mask (row :: label') v) r c Hstacked);
      [done|].
    rewrite cluster_mask_at2, Hat by done. simpl. by rewrite Z.eqb_refl. }
  unfold extract_bboxes_from_mask. rewrite Hshape. cbn [map seq].
  pose proof (bbox_of_channel_bounds st 0) as Hb.
  pose proof (bbox_of_channel_encloses st 0 0 0) as Hlo.
  pose proof (bbox_of_channel_encloses st 0 H W) as Hhi.
  rewrite Hshape in Hb, Hlo, Hhi. cbn [fst snd] in Hb, Hlo, Hhi.
  specialize (Hlo ltac:(lia) ltac:(lia) (Hpx 0 0 ltac:(lia) ltac:(lia))).
  specialize (Hhi ltac:(lia) ltac:(lia) (Hpx H W ltac:(lia) ltac:(lia))).
  destruct (bbox_of_channel st 0) as [bx0 by0 bx1 by1].
  cbn [x0 y0 x1 y1] in Hb, Hlo, Hhi.
  do 2 f_equal; lia.
Qed.

Lemma big_label_boxes st out :
  np_dstack (extract_masks_from_cluster big_label) = (out, inr st) →
  extract_bboxes_from_mask st = [mkBox 0 0 4097 4097].
Proof.
  intros Hst.
  apply (single_instance_boxes big_label 4096 4096 1 st out);
    [apply big_label_shaped|apply big_label_at|apply cluster_values_big_label|done].
Qed.

(** C7, the spec's wording refuted. The label image of 4097 x 4097
    pixels that is one instance gives the box (0, 0, 4097, 4097); its
    area entry is 16785408, the float32 nearest to the product
    4097 * 4097 = 16785409, not the product. *)
Lemma Edf_area_rounds_large_box :
  ∃ img t,
    EdfDataset.__getitem__ big_world big_edf 0 = ([], inr (img, t)) ∧
    boxes t = [mkBox 0 0 4097 4097] ∧
    area t = [16785408%Z] ∧
    area t ≠ map (fun b => ((x1 b - x0 b) * (y1 b - y0 b))%Z) (boxes t).
Proof.
  destruct (np_dstack_succeeds (extract_masks_from_cluster big_label) 4097 4097)
    as [st Hst].
  { unfold extract_masks_from_cluster. by rewrite cluster_values_big_label. }
  { unfold extract_masks_from_cluster. rewrite cluster_values_big_label.
    cbn [map]. apply Forall_singleton, cluster_mask_shaped, big_label_shaped. }
  pose proof (big_label_boxes _ _ Hst) as Hboxes.
  eexists _, _. split.
  - rewrite (Edf_getitem_run big_world big_edf 0 "g/image/t_00001.png"%string
               [[[0%Z; 0%Z; 0%Z]]] "g/label/t_00001.png"%string big_label st);
      [reflexivity|reflexivity|reflexivity|reflexivity| |exact Hst].
    unfold big_world. cbn [label_files]. apply lookup_singleton_eq.
  - cbn [boxes area]. rewrite Hboxes. split; [reflexivity|].
    split; [reflexivity|]. discriminate.
Qed.

(** ** The image_id of a sample *)

Lemma Edf_plain_image_id w self idx out img t :
  EdfDataset.transforms self = None →
  EdfDataset.__getitem__ w self idx = (out, inr (img, t)) →
  image_id t = [idx].
Proof.
  intros Htr H. by apply Edf_getitem_inv in H as (mcf & st & _ & ->).
Qed.

Lemma py_getitem_position {A} (l : list A) i out x :
  py_getitem l i = (out, inr x) →
  (0 ≤ py_position (length l) i)%Z ∧
  l !! Z.to_nat (py_position (length l) i) = Some x.
Proof.
  intros H. pose proof H as [_ Hx]%py_getitem_inr.
  unfold py_getitem in H. cbv zeta in H. unfold py_position.
  destruct (Z.leb_spec 0 (if (i <? 0)%Z then (i + Z.of_nat (length l))%Z else i));
    [done|discriminate].
Qed.

Lemma Crowd_plain_image_id w dir subset tr small o self idx out img t :
  CrowdDataset.__init__ w dir subset tr small = (o, inr self) →
  CrowdDataset.__getitem__ w (Crowd_without_transforms self) idx
  = (out, inr (img, t)) →
  ∃ id,
    image_id t = [id] ∧
    (0 ≤ py_position (CrowdDataset.__len__ self) idx)%Z ∧
    sorted (getImgIds (CrowdDataset.coco self))
      !! Z.to_nat (py_position (CrowdDataset.__len__ self) idx) = Some id.
Proof.
  intros Hinit H. apply Crowd_init_inv in Hinit as [_ Hids].
  apply Crowd_getitem_inv in H as (id & anno & st & Harg & _ & _ & ->); [|done].
  apply Crowd_argument_inv in Harg as (_ & Hid & _).
  cbn [Crowd_without_transforms CrowdDataset.img_ids] in Hid.
  apply py_getitem_position in Hid as [Hpos Hid].
  exists id. split; [done|]. unfold CrowdDataset.__len__.
  split; [done|]. by rewrite <- Hids.
Qed.

(** C10, the spec's wording refuted. On the dataset the constructor
    builds from the sample annotation source, the distinct indices -1
    and 1 both return image_id 7, and 7 is not the (-1)-th smallest
    identifier of the source. *)
Lemma Crowd_negative_index_shares_image_id :
  ∃ o self img1 t1 img2 t2,
    CrowdDataset.__init__ sample_world "r" "val" None false = (o, inr self) ∧
    CrowdDataset.__getitem__ sample_world self (-1) = ([], inr (img1, t1)) ∧
    CrowdDataset.__getitem__ sample_world self 1 = ([], inr (img2, t2)) ∧
    (-1)%Z ≠ 1%Z ∧
    image_id t1 = [7%Z] ∧ image_id t2 = [7%Z] ∧
    ¬ ith_smallest (dom (imgs (CrowdDataset.coco self))) (-1) 7.
Proof.
  eexists _, _, _, _, _, _.
  split; [vm_compute; reflexivity|].
  split; [vm_compute; reflexivity|].
  split; [vm_compute; reflexivity|].
  split; [discriminate|]. split; [reflexivity|]. split; [reflexivity|].
  intros [_ H]. lia.
Qed.

(** C10, amended. For every index i at which the local adapter returns,
    the image_id of the sample it assembled is the one-element array
    [i], the index as given, so distinct indices always yield distinct
    image_id values. For a dataset built by the constructor of the
    external-annotation adapter and every index i at which it returns,
    the image_id is the p-th smallest image id of the annotation source,
    p being the position the index denotes: i itself when i >= 0 and
    i + len when i < 0; two indices yield the same image_id exactly when
    they denote the same position, so distinct indices among 0 .. len-1
    yield distinct values while i and i - len yield the same one. With
    or without a transform configured. *)
Theorem image_id_of_index w :
  (∀ self i out res,
     EdfDataset.__getitem__ w self i = (out, inr res) →
     ∃ img t, Edf_assembled w self i out res img t ∧ image_id t = [i]) ∧
  (∀ self i j oi ri oj rj,
     EdfDataset.__getitem__ w self i = (oi, inr ri) →
     EdfDataset.__getitem__ w self j = (oj, inr rj) →
     i ≠ j →
     ∃ imgi ti imgj tj,
       Edf_assembled w self i oi ri imgi ti ∧
       Edf_assembled w self j oj rj imgj tj ∧
       image_id ti ≠ image_id tj) ∧
  (∀ dir subset tr small o self i out res,
     CrowdDataset.__init__ w dir subset tr small = (o, inr self) →
     CrowdDataset.__getitem__ w self i = (out, inr res) →
     ∃ img t id,
       Crowd_assembled w self i out res img t ∧
       image_id t = [id] ∧
       ith_smallest (dom (imgs (CrowdDataset.coco self)))
         (py_position (CrowdDataset.__len__ self) i) id) ∧
  (∀ dir subset tr small o self i j oi ri oj rj,
     CrowdDataset.__init__ w dir subset tr small = (o, inr self) →
     CrowdDataset.__getitem__ w self i = (oi, inr ri) →
     CrowdDataset.__getitem__ w self j = (oj, inr rj) →
     ∃ imgi ti imgj tj,
       Crowd_assembled w self i oi ri imgi ti ∧
       Crowd_assembled w self j oj rj imgj tj ∧
       (image_id ti = image_id tj ↔
        py_position (CrowdDataset.__len__ self) i
        = py_position (CrowdDataset.__len__ self) j) ∧
       ((0 ≤ i)%Z → (0 ≤ j)%Z → i ≠ j → image_id ti ≠ image_id tj)).
Proof.
  split; [|split; [|split]].
  - intros self i out res H.
    apply Edf_getitem_assembled in H as (img & t & Ha).
    exists img, t. split; [done|]. destruct Ha as [Hs _].
    by apply (Edf_plain_image_id w (Edf_without_transforms self) i out img t).
  - intros self i j oi ri oj rj Hi Hj Hne.
    apply Edf_getitem_assembled in Hi as (imgi & ti & Hai).
    apply Edf_getitem_assembled in Hj as (imgj & tj & Haj).
    exists imgi, ti, imgj, tj. split; [done|]. split; [done|].
    destruct Hai as [Hsi _], Haj as [Hsj _].
    apply Edf_plain_image_id in Hsi; [|done].
    apply Edf_plain_image_id in Hsj; [|done].
    rewrite Hsi, Hsj. congruence.
  - intros dir subset tr small o self i out res Hinit H.
    apply Crowd_getitem_assembled in H as (img & t & Ha).
    pose proof Ha as [Hs _].
    destruct (Crowd_plain_image_id _ _ _ _ _ _ _ _ _ _ _ Hinit Hs)
      as (id & Hid & Hpos & Hlook).
    exists img, t, id. split; [done|]. split; [done|].
    apply sorted_ids_ith in Hlook. by rewrite Z2Nat.id in Hlook.
  - intros dir subset tr small o self i j oi ri oj rj Hinit Hi Hj.
    apply Crowd_getitem_assembled in Hi as (imgi & ti & Hai).
    apply Crowd_getitem_assembled in Hj as (imgj & tj & Haj).
    pose proof Hai as [Hsi _]. pose proof Haj as [Hsj _].
    destruct (Crowd_plain_image_id _ _ _ _ _ _ _ _ _ _ _ Hinit Hsi)
      as (idi & Hidi & Hposi & Hlooki).
    destruct (Crowd_plain_image_id _ _ _ _ _ _ _ _ _ _ _ Hinit Hsj)
      as (idj & Hidj & Hposj & Hlookj).
    exists imgi, ti, imgj, tj. split; [done|]. split; [done|].
    destruct (sorted_ids_spec (CrowdDataset.coco self)) as (_ & Hnd & _).
    assert (Hiff : image_id ti = image_id tj ↔
                   py_position (CrowdDataset.__len__ self) i
                   = py_position (CrowdDataset.__len__ self) j).
    { rewrite Hidi, Hidj. split.
      - intros [= ->].
        pose proof (NoDup_lookup _ _ _ _ Hnd Hlooki Hlookj). lia.
      - intros Heq. rewrite Heq in Hlooki. congruence. }
    split; [done|]. intros H0i H0j Hne Heq. apply Hiff in Heq.
    unfold py_position in Heq.
    destruct (Z.ltb_spec i 0); [lia|]. destruct (Z.ltb_spec j 0); [lia|]. done.
Qed.

Lemma image_id_of_index_witness :
  ∃ o img1 t1 img2 t2,
    CrowdDataset.__init__ sample_world "r" "val" None false
    = (o, inr sample_crowd) ∧
    EdfDataset.__getitem__ sample_world sample_edf 0 = ([], inr (img1, t1)) ∧
    image_id t1 = [0%Z] ∧
    CrowdDataset.__getitem__ sample_world sample_crowd 1 = ([], inr (img2, t2)) ∧
    image_id t2 = [7%Z] ∧
    ith_smallest (dom (imgs sample_coco)) 1 7.
Proof.
  destruct (image_id_of_index sample_world) as (Hedf & _ & Hcrowd & _).
  destruct (Hedf sample_edf 0%Z [] _ ltac:(vm_compute; reflexivity))
    as (img1 & t1 & [_ Hr1] & Hid1).
  destruct (Hcrowd "r"%string "val"%string None false [] sample_crowd 1%Z [] _
              ltac:(vm_compute; reflexivity) ltac:(vm_compute; reflexivity))
    as (img2 & t2 & id & [_ Hr2] & Hid2 & Hith).
  injection Hr1 as <- <-. injection Hr2 as <- <-.
  injection Hid2 as <-.
  eexists _, _, _, _, _.
  split; [vm_compute; reflexivity|]. split; [vm_compute; reflexivity|].
  split; [exact Hid1|]. split; [vm_compute; reflexivity|].
  split; [reflexivity|]. exact Hith.
Defined.

(** ** The decomposer, pixel by pixel *)

Lemma sorted_list_ith (l : list Z) (ids : gset Z) (n : nat) x :
  StronglySorted Z.le l → NoDup l → (∀ y, y ∈ l ↔ y ∈ ids) →
  l !! n = Some x → ith_smallest ids (Z.of_nat n) x.
Proof.
  intros Hs Hnd Hel Hn.
  split; [apply Hel; by eapply list_elem_of_lookup_2|].
  f_equal. unfold size, set_size. simpl.
  assert (Hperm : elements (filter (fun y => (y < x)%Z) ids) ≡ₚ take n l).
  { apply NoDup_Permutation.
    - apply NoDup_elements.
    - apply (sublist_NoDup _ _ Hnd), sublist_take.
    - intros y. rewrite elem_of_elements, elem_of_filter.
      rewrite <- (sorted_prefix_below _ n x y Hs Hnd Hn), Hel. tauto. }
  rewrite Hperm. apply length_take_le.
  apply lookup_lt_Some in Hn. lia.
Qed.

Lemma extract_masks_lookup (img : list (list Z)) i m :
  extract_masks_from_cluster img !! i = Some m →
  ∃ v, cluster_values img !! i = Some v ∧ m = cluster_mask img v.
Proof.
  unfold extract_masks_from_cluster. rewrite list_lookup_fmap.
  destruct (cluster_values img !! i) as [v|]; [|discriminate].
  intros [= <-]. by exists v.
Qed.

Lemma mask_px_at2 (m : list (list bool)) r c :
  mask_px m r c = true ↔ at2 m r c = Some true.
Proof.
  unfold mask_px. destruct (at2 m r c) as [[]|]; simpl; split; done.
Qed.

Lemma cluster_mask_true (img : list (list Z)) v r c :
  mask_px (cluster_mask img v) r c = true ↔ at2 img r c = Some v.
Proof.
  rewrite mask_px_at2, cluster_mask_at2.
  destruct (at2 img r c) as [p|]; simpl; [|split; discriminate].
  destruct (Z.eqb_spec p v) as [->|Hne]; split; try done.
  intros [= ->]. done.
Qed.

(** C4. For every 2-D integer label image, with k the number of its
    distinct non-zero values, the decomposer returns exactly k boolean
    masks, each of the shape of the input; mask i is the mask of the
    i-th smallest non-zero value v of the image (ascending order): at
    every position of the image it holds the result of the equality test
    of the pixel against v, so it is true at (r, c) exactly when the
    pixel at (r, c) is v, and it has no entry outside the image; and no
    pixel is true in two masks. *)
Theorem decomposer_masks (img : list (list Z)) :
  let ms := extract_masks_from_cluster img in
  length ms = size (nonzero_values img) ∧
  Forall (fun m => same_shape m img) ms ∧
  (∀ i m, ms !! i = Some m →
     ∃ v, ith_smallest (nonzero_values img) (Z.of_nat i) v ∧
          (∀ r c, at2 m r c = (fun p => (p =? v)%Z) <$> at2 img r c) ∧
          (∀ r c, mask_px m r c = true ↔ at2 img r c = Some v)) ∧
  (∀ i j mi mj r c, ms !! i = Some mi → ms !! j = Some mj → i ≠ j →
     ¬ (mask_px mi r c = true ∧ mask_px mj r c = true)).
Proof.
  cbv zeta. destruct (cluster_values_spec img) as (Hs & Hnd & Hel).
  split; [|split; [|split]].
  - unfold extract_masks_from_cluster.
    by rewrite length_map, length_cluster_values.
  - unfold extract_masks_from_cluster. apply Forall_fmap, List.Forall_forall.
    intros v _. apply cluster_mask_shape.
  - intros i m Hm. apply extract_masks_lookup in Hm as (v & Hv & ->).
    exists v. split; [by apply (sorted_list_ith (cluster_values img))|].
    split; intros r c; [apply cluster_mask_at2|apply cluster_mask_true].
  - intros i j mi mj r c Hi Hj Hne [Hpi Hpj].
    apply extract_masks_lookup in Hi as (vi & Hvi & ->).
    apply extract_masks_lookup in Hj as (vj & Hvj & ->).
    apply cluster_mask_true in Hpi, Hpj. rewrite Hpi in Hpj.
    injection Hpj as ->. apply Hne. by eapply NoDup_lookup.
Qed.

Lemma decomposer_masks_witness :
  ∃ m v,
    extract_masks_from_cluster label_2x3 !! 0 = Some m ∧
    m = [[false; false; true]; [true; false; false]] ∧
    ith_smallest (nonzero_values label_2x3) 0 v ∧
    at2 label_2x3 0 2 = Some v ∧ v = 2%Z.
Proof.
  destruct (decomposer_masks label_2x3) as (_ & _ & Hpx & _).
  destruct (Hpx 0 [[false; false; true]; [true; false; false]]
              ltac:(vm_compute; reflexivity)) as (v & Hith & _ & Htrue).
  exists [[false; false; true]; [true; false; false]], v.
  split; [vm_compute; reflexivity|]. split; [reflexivity|]. split; [exact Hith|].
  pose proof (proj1 (Htrue 0 2) eq_refl) as Hv.
  split; [exact Hv|]. vm_compute in Hv. by injection Hv as <-.
Defined.

(** ** Boxes aligned with their masks *)






(** ** The local adapter and the label image at the index *)

Lemma as_float32_exact (H W : nat) (b : Box) :
  (Z.of_nat H ≤ 2 ^ 24)%Z → (Z.of_nat W ≤ 2 ^ 24)%Z → in_bounds H W b →
  as_float32 [b] = [b] ∧ (0 < box_area_f32 b)%Z.
Proof.
  intros HH HW (Hx & Hxw & Hy & Hyh). split.
  - unfold as_float32. cbn [map]. destruct b as [bx0 by0 bx1 by1].
    cbn [x0 y0 x1 y1] in *. rewrite !f32_exact by lia. done.
  - unfold box_area_f32. apply f32_pos.
    rewrite !f32_exact by lia. nia.
Qed.

Lemma as_float32_exact_all (H W : nat) (bs : list Box) :
  (Z.of_nat H ≤ 2 ^ 24)%Z → (Z.of_nat W ≤ 2 ^ 24)%Z →
  Forall (in_bounds H W) bs → as_float32 bs = bs.
Proof.
  intros HH HW Hin. induction Hin as [|b bs Hb _ IH]; [done|].
  destruct (as_float32_exact H W b HH HW Hb) as [Hfb _].
  change (as_float32 (b :: bs)) with (as_float32 [b] ++ as_float32 bs).
  by rewrite Hfb, IH.
Qed.

Lemma Edf_label_boxes_in_bounds (label : list (list Z)) out st :
  np_dstack (extract_masks_from_cluster label) = (out, inr st) →
  extract_bboxes_from_mask st ≠ [] ∧
  ∃ H W, shaped H W label ∧ Forall (in_bounds H W) (extract_bboxes_from_mask st).
Proof.
  intros Hst. apply np_dstack_stacked in Hst.
  pose proof Hst as (h & w & Hshape & Hpos & Hshaped & _ & _).
  split.
  { intros Hnil. apply (f_equal length) in Hnil.
    rewrite length_extract_bboxes, Hshape in Hnil. simpl in Hnil. lia. }
  exists h, w. split.
  { destruct (extract_masks_from_cluster label) as [|m ms] eqn:Ems;
      [simpl in Hpos; lia|].
    unfold extract_masks_from_cluster in Ems.
    destruct (cluster_values label) as [|v vs]; [discriminate|].
    injection Ems as <- _. apply Forall_cons in Hshaped as [Hm _].
    by apply cluster_mask_shaped in Hm. }
  apply Forall_lookup. intros i b Hb.
  assert (Hi : i < (nd_shape st).2).
  { apply lookup_lt_Some in Hb. by rewrite length_extract_bboxes in Hb. }
  rewrite (extract_bboxes_lookup st i Hi) in Hb. injection Hb as <-.
  rewrite Hshape in Hi. cbn [snd] in Hi.
  destruct (lookup_lt_is_Some_2 _ _ Hi) as [m Hm].
  pose proof Hm as (v & Hv & ->)%extract_masks_lookup.
  destruct (cluster_value_occurs label v) as (_ & r & c & Hrc).
  { by eapply list_elem_of_lookup_2. }
  assert (Hk : CrowdDataset.keep_flag (bbox_of_channel st i) = true).
  { rewrite (keep_flag_stacked _ _ _ _ Hst Hm). apply mask_nonempty_spec.
    exists r, c. rewrite cluster_mask_at2, Hrc. simpl. by rewrite Z.eqb_refl. }
  apply kept_box_in_bounds in Hk. by rewrite Hshape in Hk.
Qed.

(** X10. Every sample the local adapter returns, with or without a
    transform configured, was assembled from the label file at
    mask_paths[idx]; the sample assembled has at least one instance,
    and, the label image being H x W with H and W at most 2^24 (so that
    float32 holds every coordinate exactly), each of its boxes is
    non-degenerate and inside the label image (0 <= x0 < x1 <= W,
    0 <= y0 < y1 <= H) and every area entry is strictly positive. *)
Theorem Edf_boxes_in_bounds w self idx out res :
  EdfDataset.__getitem__ w self idx = (out, inr res) →
  ∃ img t mp label,
    Edf_assembled w self idx out res img t ∧
    py_getitem (EdfDataset.mask_paths self) idx = ([], inr mp) ∧
    label_files w !! mp = Some label ∧
    boxes t ≠ [] ∧
    ∃ H W,
      shaped H W label ∧
      ((Z.of_nat H ≤ 2 ^ 24)%Z → (Z.of_nat W ≤ 2 ^ 24)%Z →
       Forall (in_bounds H W) (boxes t) ∧
       Forall (fun a => (0 < a)%Z) (area t)).
Proof.
  intros H. apply Edf_getitem_assembled in H as (img & t & Ha).
  pose proof Ha as [Hs _].
  destruct (Edf_run_inv w (Edf_without_transforms self) idx out img t eq_refl Hs)
    as (ip & opened & mp & label & st & _ & _ & _ & _ & Hmp & Hlabel & Hst & ->).
  cbn [Edf_without_transforms EdfDataset.mask_paths] in Hmp.
  eexists img, _, mp, label. split; [exact Ha|]. split; [done|]. split; [done|].
  cbn [boxes area].
  destruct (Edf_label_boxes_in_bounds label [] st Hst) as (Hne & h & w' & Hsh & Hin).
  split.
  { intros Hnil. apply Hne. unfold as_float32 in Hnil.
    by apply map_eq_nil in Hnil. }
  exists h, w'. split; [done|]. intros Hh Hw.
  rewrite (as_float32_exact_all h w' _ Hh Hw Hin). split; [done|].
  apply Forall_fmap. eapply Forall_impl; [exact Hin|].
  intros b Hb. by apply (as_float32_exact h w' b Hh Hw Hb).
Qed.

Lemma Edf_boxes_in_bounds_witness :
  ∃ img t,
    EdfDataset.__getitem__ sample_world sample_edf 0 = ([], inr (img, t)) ∧
    boxes t = [mkBox 3 2 6 5] ∧
    Forall (in_bounds 10 10) (boxes t) ∧
    Forall (fun a => (0 < a)%Z) (area t).
Proof.
  destruct (Edf_boxes_in_bounds sample_world sample_edf 0 [] _
              ltac:(vm_compute; reflexivity))
    as (img & t & mp & label & [_ Hres] & Hmp & Hlabel & _ & H & W & Hsh & Himpl).
  injection Hres as <- <-. injection Hmp as <-.
  vm_compute in Hlabel. injection Hlabel as <-.
  destruct Hsh as [<- HW]. apply Forall_cons in HW as [<- _].
  destruct (Himpl ltac:(vm_compute; discriminate) ltac:(vm_compute; discriminate))
    as [Hb Har].
  eexists _, _. split; [vm_compute; reflexivity|]. split; [reflexivity|].
  split; [exact Hb|exact Har].
Defined.

Lemma as_uint8_lookup (ms : list (list (list bool))) i m :
  as_uint8 ms !! i = Some m →
  ∃ b, ms !! i = Some b ∧ m = map (map Z.b2z) b.
Proof.
  unfold as_uint8. rewrite list_lookup_fmap.
  destruct (ms !! i) as [b|]; [|discriminate]. intros [= <-]. by exists b.
Qed.

Lemma Edf_mask_lookup (label : list (list Z)) i m :
  as_uint8 (extract_masks_from_cluster label) !! i = Some m →
  ∃ v, cluster_values label !! i = Some v ∧
       ∀ r c, at2 m r c = (fun p => Z.b2z (p =? v)%Z) <$> at2 label r c.
Proof.
  intros (b & Hb & ->)%as_uint8_lookup.
  apply extract_masks_lookup in Hb as (v & Hv & ->).
  exists v. split; [done|]. intros r c.
  rewrite at2_fmap, cluster_mask_at2. by destruct (at2 label r c).
Qed.

(** X11. Every sample the local adapter returns, with or without a
    transform configured, was assembled from the label image stored at
    mask_paths[idx], and the masks of the sample assembled partition the
    foreground of that label image: there is one mask per distinct
    non-zero value; mask i has the shape of the label image and is 1
    exactly at the pixels whose value is the i-th smallest non-zero
    value, 0 at the others; so a pixel with value 0 is 0 in every mask,
    and a pixel with a non-zero value is 1 in exactly one mask and 0 in
    all the others. *)
Theorem Edf_masks_partition_foreground w self idx out res :
  EdfDataset.__getitem__ w self idx = (out, inr res) →
  ∃ img t mp label,
    Edf_assembled w self idx out res img t ∧
    py_getitem (EdfDataset.mask_paths self) idx = ([], inr mp) ∧
    label_files w !! mp = Some label ∧
    length (masks t) = size (nonzero_values label) ∧
    Forall (fun m => same_shape m label) (masks t) ∧
    (∀ i m, masks t !! i = Some m →
       ∃ v, ith_smallest (nonzero_values label) (Z.of_nat i) v ∧
            ∀ r c, at2 m r c = (fun p => Z.b2z (p =? v)%Z) <$> at2 label r c) ∧
    (∀ r c, at2 label r c = Some 0%Z →
       ∀ j m, masks t !! j = Some m → at2 m r c = Some 0%Z) ∧
    (∀ r c p, at2 label r c = Some p → p ≠ 0%Z →
       ∃ i, i < length (masks t) ∧
         ∀ j m, masks t !! j = Some m →
           at2 m r c = Some (if decide (j = i) then 1%Z else 0%Z)).
Proof.
  intros H. apply Edf_getitem_assembled in H as (img & t & Ha).
  pose proof Ha as [Hs _].
  destruct (Edf_run_inv w (Edf_without_transforms self) idx out img t eq_refl Hs)
    as (ip & opened & mp & label & st & _ & _ & _ & _ & Hmp & Hlabel & Hst & ->).
  cbn [Edf_without_transforms EdfDataset.mask_paths] in Hmp.
  eexists img, _, mp, label. split; [exact Ha|]. split; [done|]. split; [done|].
  cbn [masks]. destruct (cluster_values_spec label) as (Hsorted & Hnd & Hel).
  split; [|split; [|split; [|split]]].
  - unfold as_uint8, extract_masks_from_cluster.
    by rewrite !length_map, length_cluster_values.
  - unfold as_uint8, extract_masks_from_cluster.
    apply Forall_fmap, Forall_fmap, List.Forall_forall. intros v _. simpl.
    unfold same_shape. apply Forall2_fmap_l.
    eapply Forall2_impl; [apply (cluster_mask_shape label v)|].
    intros a b Hab. simpl. by rewrite length_map.
  - intros i m Hm. apply Edf_mask_lookup in Hm as (v & Hv & Hat).
    exists v. split; [by apply (sorted_list_ith (cluster_values label))|done].
  - intros r c Hrc j m Hm. apply Edf_mask_lookup in Hm as (v & Hv & Hat).
    rewrite Hat, Hrc. cbn [fmap option_fmap option_map]. f_equal.
    destruct (Z.eqb_spec 0 v) as [<-|_]; [|done].
    apply list_elem_of_lookup_2, cluster_value_occurs in Hv as [Hv _]. done.
  - intros r c p Hrc Hp.
    pose proof (at2_occurs label r c p Hrc Hp) as Hin.
    apply list_elem_of_lookup in Hin as [i Hi]. exists i. split.
    { unfold as_uint8, extract_masks_from_cluster. rewrite !length_map.
      by eapply lookup_lt_Some. }
    intros j m Hm. apply Edf_mask_lookup in Hm as (v & Hv & Hat).
    rewrite Hat, Hrc. simpl. f_equal. destruct (decide (j = i)) as [->|Hne].
    + rewrite Hi in Hv. injection Hv as <-. by rewrite Z.eqb_refl.
    + destruct (Z.eqb_spec p v) as [<-|_]; [|done].
      exfalso. apply Hne. by eapply NoDup_lookup.
Qed.

Lemma Edf_masks_partition_foreground_witness :
  ∃ img t,
    EdfDataset.__getitem__ sample_world edf_2x3 0 = ([], inr (img, t)) ∧
    masks t = [ [[0; 0; 1]; [1; 0; 0]]; [[1; 0; 0]; [0; 0; 1]] ]%Z ∧
    length (masks t) = size (nonzero_values label_2x3) ∧
    Forall (fun m => same_shape m label_2x3) (masks t).
Proof.
  destruct (Edf_masks_partition_foreground sample_world edf_2x3 0 [] _
              ltac:(vm_compute; reflexivity))
    as (img & t & mp & label & [_ Hres] & Hmp & Hlabel & Hlen & Hshape & _).
  injection Hres as <- <-. injection Hmp as <-.
  vm_compute in Hlabel. injection Hlabel as <-.
  eexists _, _. split; [vm_compute; reflexivity|]. split; [reflexivity|].
  split; [exact Hlen|exact Hshape].
Defined.
